(** * Collapse OS shell emulator: I/O bus, block-device latch and memory map

    A shallow embedding of [tools/emul/shell/shell.c].  The C file keeps its
    whole state in file-level statics and talks to the host through the three
    standard streams; here that state is one record which every callback
    receives and returns.  Machine integers are [Z] with the conversions the
    C code performs written out, and the two byte arrays are lists indexed
    with stdpp's lookup and insert. *)

From Stdlib Require Import ZArith List Lia String Ascii.
From stdpp Require Import base list.

Local Open Scope Z_scope.

(** ** Constants of the source *)

Definition MAX_FSDEV_SIZE : Z := 0x20000.
Definition MEM_SIZE : Z := 0x10000.
Definition RAMSTART : Z := 0x4000.
Definition STDIO_PORT : Z := 0x00.
Definition FS_DATA_PORT : Z := 0x01.
Definition FS_ADDR_PORT : Z := 0x02.

(** The end-of-file value of the host C library's [<stdio.h>]. *)
Definition EOF : Z := -1.

(** ** Integer conversions *)

(** [(uint8_t)c] *)
Definition u8 (z : Z) : Z := z mod 2 ^ 8.

(** Storing an [int] result into the [uint32_t] cursor. *)
Definition u32 (z : Z) : Z := z mod 2 ^ 32.

Definition is_byte (z : Z) : Prop := 0 <= z < 256.
Definition is_u16 (z : Z) : Prop := 0 <= z < 65536.

Definition is_byteb (z : Z) : bool := (0 <=? z) && (z <? 256).
Definition is_u16b (z : Z) : bool := (0 <=? z) && (z <? 65536).

(** ** Diagnostics

    Every [fprintf(stderr, ...)] of the source is one constructor, carrying
    the values its format string prints. *)

Inductive diag : Type :=
  | ReadMidAddr (ptr : Z)       (* Reading FSDEV in the middle of an addr op (%d) *)
  | OobFsdevRead (ptr : Z)      (* Out of bounds FSDEV read at %d *)
  | OobIoRead (port : Z)        (* Out of bounds I/O read: %d *)
  | WriteMidAddr (ptr : Z)      (* Writing to FSDEV in the middle of an addr op (%d) *)
  | OobFsdevWrite (ptr : Z)     (* Out of bounds FSDEV write at %d *)
  | OobIoWrite (port val : Z)   (* Out of bounds I/O write: %d / %d (0x%x) *)
  | RomWrite (addr : Z)         (* Writing to ROM (%d)! *)
  | ImageTooLarge.              (* Filesytem image too large. *)

(** ** State *)

Record state : Type := State {
  mem : list Z;             (* static uint8_t mem[0x10000] *)
  fsdev : list Z;           (* static uint8_t fsdev[MAX_FSDEV_SIZE] *)
  fsdev_ptr : Z;            (* static uint32_t fsdev_ptr *)
  fsdev_addr_lvl : Z;       (* static int fsdev_addr_lvl *)
  running : Z;              (* static int running *)
  stdin : list Z;           (* bytes getchar has yet to deliver *)
  stdout : list Z;          (* bytes written by putchar/printf, oldest first *)
  stderr : list diag        (* diagnostics, oldest first *)
}.

Definition set_mem (m : list Z) (s : state) : state :=
  State m (fsdev s) (fsdev_ptr s) (fsdev_addr_lvl s) (running s)
        (stdin s) (stdout s) (stderr s).

Definition set_fsdev (d : list Z) (s : state) : state :=
  State (mem s) d (fsdev_ptr s) (fsdev_addr_lvl s) (running s)
        (stdin s) (stdout s) (stderr s).

Definition set_fsdev_ptr (p : Z) (s : state) : state :=
  State (mem s) (fsdev s) p (fsdev_addr_lvl s) (running s)
        (stdin s) (stdout s) (stderr s).

Definition set_fsdev_addr_lvl (l : Z) (s : state) : state :=
  State (mem s) (fsdev s) (fsdev_ptr s) l (running s)
        (stdin s) (stdout s) (stderr s).

Definition set_running (r : Z) (s : state) : state :=
  State (mem s) (fsdev s) (fsdev_ptr s) (fsdev_addr_lvl s) r
        (stdin s) (stdout s) (stderr s).

Definition set_stdin (i : list Z) (s : state) : state :=
  State (mem s) (fsdev s) (fsdev_ptr s) (fsdev_addr_lvl s) (running s)
        i (stdout s) (stderr s).

Definition set_stdout (o : list Z) (s : state) : state :=
  State (mem s) (fsdev s) (fsdev_ptr s) (fsdev_addr_lvl s) (running s)
        (stdin s) o (stderr s).

Definition set_stderr (e : list diag) (s : state) : state :=
  State (mem s) (fsdev s) (fsdev_ptr s) (fsdev_addr_lvl s) (running s)
        (stdin s) (stdout s) e.

(** The part of the state the emulated machine itself owns: everything but
    the three host streams. *)
Definition machine (s : state) : list Z * list Z * Z * Z * Z :=
  (mem s, fsdev s, fsdev_ptr s, fsdev_addr_lvl s, running s).

(** Both arrays have their declared sizes. *)
Definition wf (s : state) : Prop :=
  length (mem s) = Z.to_nat MEM_SIZE /\
  length (fsdev s) = Z.to_nat MAX_FSDEV_SIZE.

(** ** Host streams *)

(** [getchar()]: the next input byte, or [EOF] once the input is exhausted
    (and on every later call). *)
Definition getchar (s : state) : Z * state :=
  match stdin s with
  | [] => (EOF, s)
  | c :: rest => (c, set_stdin rest s)
  end.

Definition putchar (c : Z) (s : state) : state :=
  set_stdout (stdout s ++ [c]) s.

Definition fprintf_stderr (d : diag) (s : state) : state :=
  set_stderr (stderr s ++ [d]) s.

(** ** The four callbacks *)

Definition io_read (addr : Z) (s : state) : Z * state :=
  let addr := Z.land addr 0xff in
  if addr =? STDIO_PORT then
    let '(c, s) := getchar s in
    let s := if c =? EOF then set_running 0 s else s in
    (u8 c, s)
  else if addr =? FS_DATA_PORT then
    if negb (fsdev_addr_lvl s =? 0) then
      (0, fprintf_stderr (ReadMidAddr (fsdev_ptr s)) s)
    else if fsdev_ptr s <? MAX_FSDEV_SIZE then
      (fsdev s !!! Z.to_nat (fsdev_ptr s), s)
    else
      let s := if fsdev_ptr s >=? MAX_FSDEV_SIZE
               then fprintf_stderr (OobFsdevRead (fsdev_ptr s)) s
               else s in
      (0, s)
  else if addr =? FS_ADDR_PORT then
    if negb (fsdev_addr_lvl s =? 0) then (3, s)
    else if fsdev_ptr s >? MAX_FSDEV_SIZE then (2, s)
    else (0, s)
  else
    (0, fprintf_stderr (OobIoRead addr) s).

Definition io_write (addr val : Z) (s : state) : state :=
  let addr := Z.land addr 0xff in
  if addr =? STDIO_PORT then
    if val =? 0x04 then set_running 0 s
    else putchar val s
  else if addr =? FS_DATA_PORT then
    if negb (fsdev_addr_lvl s =? 0) then
      fprintf_stderr (WriteMidAddr (fsdev_ptr s)) s
    else if fsdev_ptr s <? MAX_FSDEV_SIZE then
      set_fsdev (<[Z.to_nat (fsdev_ptr s) := val]> (fsdev s)) s
    else
      fprintf_stderr (OobFsdevWrite (fsdev_ptr s)) s
  else if addr =? FS_ADDR_PORT then
    if fsdev_addr_lvl s =? 0 then
      set_fsdev_addr_lvl 1 (set_fsdev_ptr (u32 (Z.shiftl val 16)) s)
    else if fsdev_addr_lvl s =? 1 then
      set_fsdev_addr_lvl 2
        (set_fsdev_ptr (u32 (Z.lor (fsdev_ptr s) (Z.shiftl val 8))) s)
    else
      set_fsdev_addr_lvl 0 (set_fsdev_ptr (u32 (Z.lor (fsdev_ptr s) val)) s)
  else
    fprintf_stderr (OobIoWrite addr val) s.

Definition mem_read (addr : Z) (s : state) : Z :=
  mem s !!! Z.to_nat addr.

Definition mem_write (addr val : Z) (s : state) : state :=
  let s := if addr <? RAMSTART then fprintf_stderr (RomWrite addr) s else s in
  set_mem (<[Z.to_nat addr := val]> (mem s)) s.

(** ** Start-up: the part of [main] that runs before the CPU loop *)

Definition bytes_of_string (msg : string) : list Z :=
  map (fun a => Z.of_N (N_of_ascii a)) (list_ascii_of_string msg).

(** [printf] of a fixed line; the trailing newline is byte 10. *)
Definition printf_line (msg : string) (s : state) : state :=
  set_stdout (stdout s ++ bytes_of_string msg ++ [10]) s.

(** A zero-initialised array of [n] bytes ([= {0}]). *)
Definition zeros (n : Z) : list Z := replicate (Z.to_nat n) 0.
Arguments zeros : simpl never.

(** The statics as the loader leaves them: all zero. *)
Definition power_on (input : list Z) : state :=
  State (zeros MEM_SIZE) (zeros MAX_FSDEV_SIZE) 0 0 0 input [] [].

(** [while ((c = fgetc(fp)) != EOF && i < MAX_FSDEV_SIZE) fsdev[i++] = c & 0xff;]
    returning the final [i] and the buffer. *)
Fixpoint load_image (src : list Z) (i : Z) (dev : list Z) : Z * list Z :=
  match src with
  | [] => (i, dev)
  | c :: rest =>
      if i <? MAX_FSDEV_SIZE
      then load_image rest (i + 1) (<[Z.to_nat i := Z.land c 0xff]> dev)
      else (i, dev)
  end.

(** [for (int i=0; i<sizeof(KERNEL); i++) mem[i] = KERNEL[i];] *)
Fixpoint copy_kernel (kernel : list Z) (i : Z) (m : list Z) : list Z :=
  match kernel with
  | [] => m
  | b :: rest => copy_kernel rest (i + 1) (<[Z.to_nat i := b]> m)
  end.

Inductive outcome : Type :=
  | Started (s : state)             (* the CPU loop is entered in state [s] *)
  | Exited (code : Z) (s : state).  (* [main] returned before the loop *)

(** [KERNEL] is the blob of the generated header [kernel-bin.h]; [cfspack] is
    the output of the packer subprocess ([None] when [popen] fails); [tty]
    tells whether [tcgetattr] succeeded. *)
Definition boot (KERNEL : list Z) (cfspack : option (list Z)) (tty : bool)
                (input : list Z) : outcome :=
  let s := power_on input in
  let loaded :=
    match cfspack with
    | Some img =>
        let s := printf_line "Initializing filesystem" s in
        let '(i, dev) := load_image img 0 (fsdev s) in
        let s := set_fsdev dev s in
        if i =? MAX_FSDEV_SIZE
        then inr (fprintf_stderr ImageTooLarge s)
        else inl s
    | None => inl (printf_line "Can't initialize filesystem. Leaving blank." s)
    end in
  match loaded with
  | inr s => Exited 1 s
  | inl s =>
      if negb tty then Exited 1 (printf_line "Can't setup terminal." s)
      else Started (set_running 1 (set_mem (copy_kernel KERNEL 0 (mem s)) s))
  end.

(** ** Bus traffic

    The CPU stepper is external; all it can do to the state is call the four
    callbacks, with arguments of their C types. *)

Inductive op : Type :=
  | IoRead (addr : Z)
  | IoWrite (addr val : Z)
  | MemRead (addr : Z)
  | MemWrite (addr val : Z).

Definition op_okb (o : op) : bool :=
  match o with
  | IoRead a => is_u16b a
  | IoWrite a v => is_u16b a && is_byteb v
  | MemRead a => is_u16b a
  | MemWrite a v => is_u16b a && is_byteb v
  end.

Definition step (s : state) (o : op) : state :=
  match o with
  | IoRead a => snd (io_read a s)
  | IoWrite a v => io_write a v s
  | MemRead a => s
  | MemWrite a v => mem_write a v s
  end.

Definition run (ops : list op) (s : state) : state := fold_left step ops s.

(** ** The address latch in the spec's words *)

(** The three-write sequence on the address port, most significant byte
    first. *)
Definition latch (hi mid lo : Z) (s : state) : state :=
  io_write FS_ADDR_PORT lo
    (io_write FS_ADDR_PORT mid (io_write FS_ADDR_PORT hi s)).

(** [(hi<<16)|(mid<<8)|lo] *)
Definition latched_cursor (hi mid lo : Z) : Z :=
  Z.lor (Z.lor (Z.shiftl hi 16) (Z.shiftl mid 8)) lo.

(** ** Reachable states

    The CPU loop starts in a state [boot] returns and moves by [step]. *)

(** What every state the CPU loop can be in satisfies: the cursor is a
    24-bit value and the latch phase is one of the three the source names. *)
Definition cursor_inv (s : state) : Prop :=
  0 <= fsdev_ptr s < 2 ^ 24 /\
  (fsdev_addr_lvl s = 0 \/ fsdev_addr_lvl s = 1 \/ fsdev_addr_lvl s = 2).

(** The session with no kernel blob, no packed image and no input. *)
Definition blank_session : state :=
  match boot [] None true [] with
  | Started s => s
  | Exited _ s => s
  end.

(** ** The CPU loop and [main]

    The Z80 stepper of [libz80] is not part of this file: it is taken as a
    parameter, a function from the CPU context and the emulator state to
    their successors, with the [halted] field as a predicate. *)

Section Driver.
Variable cpu : Type.
Variable Z80RESET : cpu -> cpu.
Variable Z80Execute : cpu -> state -> cpu * state.
Variable halted : cpu -> bool.

(** [running && !cpu.halted] *)
Definition loop_cond (c : cpu) (s : state) : bool :=
  negb (running s =? 0) && negb (halted c).

(** [while (running && !cpu.halted) Z80Execute(&cpu);] with a bound on the
    number of iterations; [None] when the bound is used up. *)
Fixpoint cpu_loop (fuel : nat) (c : cpu) (s : state) : option (cpu * state) :=
  if loop_cond c s then
    match fuel with
    | O => None
    | S n => let '(c', s') := Z80Execute c s in cpu_loop n c' s'
    end
  else Some (c, s).

(** [k] calls of the stepper in a row. *)
Fixpoint exec_n (k : nat) (c : cpu) (s : state) : cpu * state :=
  match k with
  | O => (c, s)
  | S n => let '(c', s') := Z80Execute c s in exec_n n c' s'
  end.

(** The loop condition after [j] stepper calls. *)
Definition cond_after (j : nat) (c : cpu) (s : state) : bool :=
  loop_cond (fst (exec_n j c s)) (snd (exec_n j c s)).

(** [main]: exit code and final state, [None] when the loop bound is used
    up.  The terminal mode changes are outside the state. *)
Definition main (fuel : nat) (c0 : cpu) (KERNEL : list Z)
           (cfspack : option (list Z)) (tty : bool) (input : list Z)
  : option (Z * state) :=
  match boot KERNEL cfspack tty input with
  | Exited code s => Some (code, s)
  | Started s =>
      match cpu_loop fuel (Z80RESET c0) s with
      | None => None
      | Some (_, s') => Some (0, printf_line "Done!" s')
      end
  end.
End Driver.

Arguments loop_cond {cpu} halted c s.
Arguments cpu_loop {cpu} Z80Execute halted fuel c s.
Arguments exec_n {cpu} Z80Execute k c s.
Arguments cond_after {cpu} Z80Execute halted j c s.
Arguments main {cpu} Z80RESET Z80Execute halted fuel c0 KERNEL cfspack tty input.

(** A scripted stand-in for the stepper: each step performs the next
    callback of a list (skipping one whose arguments do not fit their C
    types), and the CPU is halted once the list is used up. *)
Definition script_execute (c : list op) (s : state) : list op * state :=
  match c with
  | [] => ([], s)
  | o :: rest => (rest, if op_okb o then step s o else s)
  end.

(** The session whose packed image holds 0xAB at offset 5. *)
Definition preloaded_session : state :=
  match boot [0xC3; 0x00; 0x01] (Some [0; 0; 0; 0; 0; 0xAB]) true [] with
  | Started s => s
  | Exited _ s => s
  end.

Definition script_halted (c : list op) : bool :=
  match c with
  | [] => true
  | _ :: _ => false
  end.

(** ** Derived notions used in the statements *)

(** A run of writes to the address port. *)
Definition addr_writes (bs : list Z) (s : state) : state :=
  fold_left (fun s b => io_write FS_ADDR_PORT b s) bs s.

(** The bytes a list of callbacks sends to the console port, 0x04 left out. *)
Definition console_bytes (ops : list op) : list Z :=
  flat_map (fun o =>
              match o with
              | IoWrite a v =>
                  if (Z.land a 0xff =? STDIO_PORT) && negb (v =? 0x04)
                  then [v] else []
              | _ => []
              end) ops.

(** The three address bytes of a 24-bit cursor, most significant first. *)
Definition cursor_bytes (c : Z) : Z * Z * Z :=
  (Z.shiftr c 16, Z.land (Z.shiftr c 8) 0xff, Z.land c 0xff).

(** The number of console reads in a list of callbacks. *)
Fixpoint console_reads (ops : list op) : nat :=
  match ops with
  | [] => O
  | IoRead a :: rest =>
      if Z.land a 0xff =? STDIO_PORT
      then S (console_reads rest) else console_reads rest
  | _ :: rest => console_reads rest
  end.

(** * Properties *)

(** ** Arithmetic of the cursor *)

Lemma u32_small (z : Z) : 0 <= z < 2 ^ 32 -> u32 z = z.
Proof. intros H. unfold u32. apply Z.mod_small. exact H. Qed.

Lemma shiftl_byte_bound (v n : Z) :
  0 <= n -> is_byte v -> 0 <= Z.shiftl v n < 2 ^ (8 + n).
Proof.
  intros Hn [H0 H1]. rewrite Z.shiftl_mul_pow2 by exact Hn.
  rewrite Z.pow_add_r by lia.
  assert (0 < 2 ^ n) by (apply Z.pow_pos_nonneg; lia).
  change (2 ^ 8) with 256. nia.
Qed.

Lemma lor_bound (a b n : Z) :
  0 < n -> 0 <= a < 2 ^ n -> 0 <= b < 2 ^ n -> 0 <= Z.lor a b < 2 ^ n.
Proof.
  intros Hn [Ha0 Ha1] [Hb0 Hb1].
  assert (H0 : 0 <= Z.lor a b) by (apply Z.lor_nonneg; lia).
  split; [exact H0|].
  assert (Hlog : forall x, 0 <= x < 2 ^ n -> Z.log2 x < n).
  { intros x [Hx0 Hx1]. destruct (Z.eq_dec x 0) as [->|Hne].
    - exact Hn.
    - apply Z.log2_lt_pow2; lia. }
  destruct (Z.eq_dec (Z.lor a b) 0) as [->|Hne].
  - apply Z.pow_pos_nonneg; lia.
  - apply Z.log2_lt_pow2; [lia|].
    rewrite Z.log2_lor by lia.
    apply Z.max_lub_lt; apply Hlog; lia.
Qed.

Lemma latched_cursor_bound (hi mid lo : Z) :
  is_byte hi -> is_byte mid -> is_byte lo ->
  0 <= latched_cursor hi mid lo < 2 ^ 24.
Proof.
  intros Hh Hm Hl. unfold latched_cursor.
  pose proof (shiftl_byte_bound hi 16 ltac:(lia) Hh) as H16.
  pose proof (shiftl_byte_bound mid 8 ltac:(lia) Hm) as H8.
  change (2 ^ (8 + 16)) with (2 ^ 24) in H16.
  change (2 ^ (8 + 8)) with 65536 in H8.
  unfold is_byte in Hl. change (2 ^ 24) with 16777216 in *.
  apply (lor_bound _ _ 24); [lia| |lia].
  apply (lor_bound _ _ 24); lia.
Qed.

(** ** The callbacks, port by port *)

Lemma io_read_console (s : state) :
  io_read STDIO_PORT s =
    (u8 (fst (getchar s)),
     if fst (getchar s) =? EOF then set_running 0 (snd (getchar s))
     else snd (getchar s)).
Proof. unfold io_read. simpl. destruct (getchar s). reflexivity. Qed.

Lemma io_read_data (s : state) :
  io_read FS_DATA_PORT s =
    if fsdev_addr_lvl s =? 0 then
      if fsdev_ptr s <? MAX_FSDEV_SIZE
      then (fsdev s !!! Z.to_nat (fsdev_ptr s), s)
      else (0, fprintf_stderr (OobFsdevRead (fsdev_ptr s)) s)
    else (0, fprintf_stderr (ReadMidAddr (fsdev_ptr s)) s).
Proof.
  unfold io_read. simpl.
  destruct (fsdev_addr_lvl s =? 0); simpl; [|reflexivity].
  destruct (fsdev_ptr s <? MAX_FSDEV_SIZE) eqn:Hlt; [reflexivity|].
  apply Z.ltb_ge, Z.geb_le in Hlt. rewrite Hlt. reflexivity.
Qed.

Lemma io_read_status (s : state) :
  io_read FS_ADDR_PORT s =
    (if fsdev_addr_lvl s =? 0
     then if fsdev_ptr s >? MAX_FSDEV_SIZE then 2 else 0
     else 3, s).
Proof.
  unfold io_read. simpl.
  destruct (fsdev_addr_lvl s =? 0); simpl; [|reflexivity].
  destruct (fsdev_ptr s >? MAX_FSDEV_SIZE); reflexivity.
Qed.

Lemma io_write_console (v : Z) (s : state) :
  io_write STDIO_PORT v s = if v =? 0x04 then set_running 0 s else putchar v s.
Proof. reflexivity. Qed.

Lemma io_write_data (v : Z) (s : state) :
  io_write FS_DATA_PORT v s =
    if fsdev_addr_lvl s =? 0 then
      if fsdev_ptr s <? MAX_FSDEV_SIZE
      then set_fsdev (<[Z.to_nat (fsdev_ptr s) := v]> (fsdev s)) s
      else fprintf_stderr (OobFsdevWrite (fsdev_ptr s)) s
    else fprintf_stderr (WriteMidAddr (fsdev_ptr s)) s.
Proof.
  unfold io_write. simpl. destruct (fsdev_addr_lvl s =? 0); reflexivity.
Qed.

Lemma io_write_addr (v : Z) (s : state) :
  io_write FS_ADDR_PORT v s =
    if fsdev_addr_lvl s =? 0 then
      set_fsdev_addr_lvl 1 (set_fsdev_ptr (u32 (Z.shiftl v 16)) s)
    else if fsdev_addr_lvl s =? 1 then
      set_fsdev_addr_lvl 2
        (set_fsdev_ptr (u32 (Z.lor (fsdev_ptr s) (Z.shiftl v 8))) s)
    else
      set_fsdev_addr_lvl 0 (set_fsdev_ptr (u32 (Z.lor (fsdev_ptr s) v)) s).
Proof. reflexivity. Qed.

(** Only the low eight bits of the port number count. *)
Lemma io_read_port_mask (a : Z) (s : state) :
  io_read a s = io_read (Z.land a 0xff) s.
Proof.
  unfold io_read. rewrite <- Z.land_assoc. rewrite Z.land_diag. reflexivity.
Qed.

Lemma io_write_port_mask (a v : Z) (s : state) :
  io_write a v s = io_write (Z.land a 0xff) v s.
Proof.
  unfold io_write. rewrite <- Z.land_assoc. rewrite Z.land_diag. reflexivity.
Qed.

(** ** Address latch *)

Lemma latch_from_idle (s : state) (hi mid lo : Z) :
  is_byte hi -> is_byte mid -> is_byte lo -> fsdev_addr_lvl s = 0 ->
  latch hi mid lo s = set_fsdev_ptr (latched_cursor hi mid lo) s.
Proof.
  intros Hh Hm Hl Hidle.
  pose proof (shiftl_byte_bound hi 16 ltac:(lia) Hh) as H16.
  pose proof (shiftl_byte_bound mid 8 ltac:(lia) Hm) as H8.
  change (2 ^ (8 + 16)) with 16777216 in H16.
  change (2 ^ (8 + 8)) with 65536 in H8.
  assert (Hhm : 0 <= Z.lor (Z.shiftl hi 16) (Z.shiftl mid 8) < 2 ^ 24)
    by (apply lor_bound; change (2 ^ 24) with 16777216; lia).
  pose proof (latched_cursor_bound hi mid lo Hh Hm Hl) as Hc.
  unfold latched_cursor in *. change (2 ^ 24) with 16777216 in *.
  unfold latch. rewrite !io_write_addr.
  destruct s as [m d p l r i o e]; simpl in *. subst l. simpl.
  rewrite (u32_small (Z.shiftl hi 16)) by (change (2 ^ 32) with 4294967296; lia).
  rewrite (u32_small (Z.lor _ (Z.shiftl mid 8)))
    by (change (2 ^ 32) with 4294967296; lia).
  rewrite u32_small by (change (2 ^ 32) with 4294967296; lia).
  reflexivity.
Qed.

(** C1.  Three bytes [hi], [mid], [lo] written to the address port from an
    idle latch leave the cursor at [(hi<<16)|(mid<<8)|lo] and the latch idle
    again, nothing else having changed; the next data-port read or write then
    works at that cursor (the byte there when it is below the capacity, the
    out-of-range diagnostic for that cursor otherwise). *)
Theorem addr_latch_sets_cursor (s : state) (hi mid lo : Z) :
  is_byte hi -> is_byte mid -> is_byte lo -> fsdev_addr_lvl s = 0 ->
  let c := latched_cursor hi mid lo in
  let s' := latch hi mid lo s in
  fsdev_ptr s' = c /\
  fsdev_addr_lvl s' = 0 /\
  s' = set_fsdev_ptr c s /\
  io_read FS_DATA_PORT s' =
    (if c <? MAX_FSDEV_SIZE
     then (fsdev s !!! Z.to_nat c, s')
     else (0, fprintf_stderr (OobFsdevRead c) s')) /\
  forall v,
    io_write FS_DATA_PORT v s' =
      if c <? MAX_FSDEV_SIZE
      then set_fsdev (<[Z.to_nat c := v]> (fsdev s)) s'
      else fprintf_stderr (OobFsdevWrite c) s'.
Proof.
  intros Hh Hm Hl Hidle c s'.
  assert (Hs : s' = set_fsdev_ptr c s) by (apply latch_from_idle; assumption).
  rewrite Hs. repeat split.
  - exact Hidle.
  - rewrite io_read_data. simpl. rewrite Hidle. reflexivity.
  - intros v. rewrite io_write_data. simpl. rewrite Hidle. reflexivity.
Qed.

Lemma addr_latch_sets_cursor_witness :
  fsdev_ptr (latch 0x01 0x02 0x03 (power_on [0x41])) = 0x010203 /\
  fsdev_addr_lvl (latch 0x01 0x02 0x03 (power_on [0x41])) = 0 /\
  latch 0x01 0x02 0x03 (power_on [0x41]) =
    set_fsdev_ptr 0x010203 (power_on [0x41]).
Proof.
  destruct (addr_latch_sets_cursor (power_on [0x41]) 0x01 0x02 0x03)
    as (Hp & Hl & Hs & _);
    [unfold is_byte; lia | unfold is_byte; lia | unfold is_byte; lia
    | reflexivity | ].
  split; [exact Hp | split; [exact Hl | exact Hs]].
Defined.

(** ** Data port *)

(** Every callback but a write to the address port leaves the latch phase
    as it is. *)
Lemma step_keeps_lvl (s : state) (o : op) :
  (forall a v, o = IoWrite a v -> Z.land a 0xff <> FS_ADDR_PORT) ->
  fsdev_addr_lvl (step s o) = fsdev_addr_lvl s.
Proof.
  intros Hna. destruct o as [a|a v|a|a v]; simpl.
  - unfold io_read, getchar.
    repeat match goal with
           | |- context [if ?b then _ else _] => destruct b; simpl
           | |- context [match stdin s with _ => _ end] =>
               destruct (stdin s); simpl
           end; reflexivity.
  - specialize (Hna a v eq_refl). unfold io_write.
    destruct (Z.land a 0xff =? STDIO_PORT);
      [destruct (v =? 0x04); reflexivity|].
    destruct (Z.land a 0xff =? FS_DATA_PORT).
    { repeat match goal with
             | |- context [if ?b then _ else _] => destruct b; simpl
             end; reflexivity. }
    destruct (Z.land a 0xff =? FS_ADDR_PORT) eqn:E; [|reflexivity].
    apply Z.eqb_eq in E. contradiction.
  - reflexivity.
  - unfold mem_write. destruct (a <? RAMSTART); reflexivity.
Qed.

(** C2.  While the latch is mid-sequence, a data-port read returns zero and a
    data-port write is dropped; each only appends its diagnostic to the error
    stream, leaving memory, buffer, cursor, latch phase, run flag, input and
    output as they were.  No callback other than an address-port write moves
    the phase, the second address byte leaves it mid-sequence, and the third
    returns it to idle. *)
Theorem data_port_rejected_mid_latch (s : state) (v : Z) :
  fsdev_addr_lvl s <> 0 ->
  let r := io_read FS_DATA_PORT s in
  let w := io_write FS_DATA_PORT v s in
  fst r = 0 /\
  snd r = fprintf_stderr (ReadMidAddr (fsdev_ptr s)) s /\
  machine (snd r) = machine s /\
  stdin (snd r) = stdin s /\ stdout (snd r) = stdout s /\
  stderr (snd r) = (stderr s ++ [ReadMidAddr (fsdev_ptr s)])%list /\
  w = fprintf_stderr (WriteMidAddr (fsdev_ptr s)) s /\
  machine w = machine s /\
  stdin w = stdin s /\ stdout w = stdout s /\
  stderr w = (stderr s ++ [WriteMidAddr (fsdev_ptr s)])%list /\
  (forall o, (forall a b, o = IoWrite a b -> Z.land a 0xff <> FS_ADDR_PORT) ->
             fsdev_addr_lvl (step s o) <> 0) /\
  (fsdev_addr_lvl s = 1 ->
   forall b, fsdev_addr_lvl (io_write FS_ADDR_PORT b s) = 2) /\
  (fsdev_addr_lvl s = 2 ->
   forall b, fsdev_addr_lvl (io_write FS_ADDR_PORT b s) = 0).
Proof.
  intros Hmid r w. subst r w.
  rewrite io_read_data, io_write_data.
  apply Z.eqb_neq in Hmid. rewrite Hmid. simpl.
  repeat split; try reflexivity.
  - intros o Ho. rewrite step_keeps_lvl by exact Ho.
    apply Z.eqb_neq. exact Hmid.
  - intros H1 b. rewrite io_write_addr, H1. reflexivity.
  - intros H2 b. rewrite io_write_addr, H2. reflexivity.
Qed.

Lemma data_port_rejected_mid_latch_witness :
  fst (io_read FS_DATA_PORT
         (io_write FS_ADDR_PORT 0x00 (io_write FS_ADDR_PORT 0x00 (power_on [])))) = 0 /\
  stderr (io_write FS_DATA_PORT 0x58
            (io_write FS_ADDR_PORT 0x00 (io_write FS_ADDR_PORT 0x00 (power_on []))))
    = [WriteMidAddr 0].
Proof.
  destruct (data_port_rejected_mid_latch
              (io_write FS_ADDR_PORT 0x00 (io_write FS_ADDR_PORT 0x00 (power_on [])))
              0x58)
    as (Hr & _ & _ & _ & _ & _ & _ & _ & _ & _ & Hw & _);
    [simpl; lia | ].
  split; [exact Hr | exact Hw].
Defined.

Lemma wf_power_on (input : list Z) : wf (power_on input).
Proof. split; cbn [power_on mem fsdev]; apply length_replicate. Qed.

Lemma lookup_total_insert_same (l : list Z) (i : nat) (v : Z) :
  (i < length l)%nat -> <[i := v]> l !!! i = v.
Proof.
  intros Hi. apply list_lookup_total_correct.
  apply list_lookup_insert_eq. exact Hi.
Qed.

(** C3.  With the latch idle, a data-port access at a cursor equal to the
    capacity or beyond returns zero (read) or is dropped (write) with the
    out-of-range diagnostic; at cursor 131071 the read returns the buffer's
    last byte without a diagnostic and the write stores its byte there, so
    that reading it back gives the byte written. *)
Theorem data_port_bounds (s : state) (v : Z) :
  wf s -> fsdev_addr_lvl s = 0 ->
  (MAX_FSDEV_SIZE <= fsdev_ptr s ->
   io_read FS_DATA_PORT s = (0, fprintf_stderr (OobFsdevRead (fsdev_ptr s)) s) /\
   io_write FS_DATA_PORT v s = fprintf_stderr (OobFsdevWrite (fsdev_ptr s)) s /\
   fsdev (io_write FS_DATA_PORT v s) = fsdev s) /\
  (fsdev_ptr s = MAX_FSDEV_SIZE - 1 ->
   io_read FS_DATA_PORT s = (fsdev s !!! Z.to_nat 131071, s) /\
   io_write FS_DATA_PORT v s = set_fsdev (<[Z.to_nat 131071 := v]> (fsdev s)) s /\
   io_read FS_DATA_PORT (io_write FS_DATA_PORT v s) =
     (v, io_write FS_DATA_PORT v s)).
Proof.
  intros [_ Hlen] Hidle. split.
  - intros Hge. rewrite io_read_data, io_write_data, Hidle. simpl.
    apply Z.ltb_ge in Hge. rewrite Hge. repeat split; reflexivity.
  - intros Hp.
    assert (Hw : io_write FS_DATA_PORT v s =
                 set_fsdev (<[Z.to_nat 131071 := v]> (fsdev s)) s).
    { rewrite io_write_data, Hidle, Hp. reflexivity. }
    split; [|split; [exact Hw|]].
    + rewrite io_read_data, Hidle, Hp. reflexivity.
    + rewrite Hw, io_read_data. simpl. rewrite Hidle, Hp. simpl.
      rewrite lookup_total_insert_same; [reflexivity|].
      rewrite Hlen. apply Z2Nat.inj_lt; unfold MAX_FSDEV_SIZE; lia.
Qed.

Lemma data_port_bounds_witness :
  fst (io_read FS_DATA_PORT (latch 0x02 0x00 0x00 (power_on []))) = 0 /\
  stderr (snd (io_read FS_DATA_PORT (latch 0x02 0x00 0x00 (power_on []))))
    = [OobFsdevRead 131072] /\
  fst (io_read FS_DATA_PORT
         (io_write FS_DATA_PORT 0xAB (latch 0x01 0xFF 0xFF (power_on [])))) = 0xAB.
Proof.
  pose proof (data_port_bounds (latch 0x02 0x00 0x00 (power_on [])) 0xAB
                (wf_power_on []) eq_refl) as [Hat _].
  pose proof (data_port_bounds (latch 0x01 0xFF 0xFF (power_on [])) 0xAB
                (wf_power_on []) eq_refl) as [_ Hbelow].
  destruct (Hat ltac:(apply Z.leb_le; reflexivity)) as (Hr & _).
  destruct (Hbelow eq_refl) as (_ & _ & Hrw).
  rewrite Hr, Hrw. repeat split.
Defined.

(** ** Status port *)

(** C4.  A read of the address port changes nothing and returns 3 whenever
    the latch is mid-sequence, whatever the cursor; with the latch idle it
    returns 2 when the cursor is strictly above the capacity and 0 otherwise.
    At a cursor equal to the capacity the status is 0 although the data port
    rejects both a read and a write there. *)
Theorem status_port (s : state) :
  snd (io_read FS_ADDR_PORT s) = s /\
  (fsdev_addr_lvl s <> 0 -> fst (io_read FS_ADDR_PORT s) = 3) /\
  (fsdev_addr_lvl s = 0 -> fsdev_ptr s > MAX_FSDEV_SIZE ->
   fst (io_read FS_ADDR_PORT s) = 2) /\
  (fsdev_addr_lvl s = 0 -> fsdev_ptr s <= MAX_FSDEV_SIZE ->
   fst (io_read FS_ADDR_PORT s) = 0) /\
  (fsdev_addr_lvl s = 0 -> fsdev_ptr s = MAX_FSDEV_SIZE ->
   fst (io_read FS_ADDR_PORT s) = 0 /\
   io_read FS_DATA_PORT s = (0, fprintf_stderr (OobFsdevRead 131072) s) /\
   forall v, io_write FS_DATA_PORT v s = fprintf_stderr (OobFsdevWrite 131072) s).
Proof.
  rewrite io_read_status. simpl. split; [reflexivity|].
  split; [|split; [|split]].
  - intros Hmid. apply Z.eqb_neq in Hmid. rewrite Hmid. reflexivity.
  - intros Hidle Hgt. rewrite Hidle. simpl.
    apply Z.gt_lt, Z.gtb_lt in Hgt. rewrite Hgt. reflexivity.
  - intros Hidle Hle. rewrite Hidle. simpl.
    destruct (fsdev_ptr s >? MAX_FSDEV_SIZE) eqn:E; [|reflexivity].
    apply Z.gtb_lt in E. lia.
  - intros Hidle Hp. rewrite io_read_data. rewrite Hidle, Hp.
    split; [reflexivity|]. split; [reflexivity|].
    intros v. rewrite io_write_data, Hidle, Hp. reflexivity.
Qed.

Lemma status_port_witness :
  fst (io_read FS_ADDR_PORT (io_write FS_ADDR_PORT 0xFF (power_on []))) = 3 /\
  fst (io_read FS_ADDR_PORT (latch 0x02 0x00 0x01 (power_on []))) = 2 /\
  fst (io_read FS_ADDR_PORT (latch 0x02 0x00 0x00 (power_on []))) = 0 /\
  fst (io_read FS_DATA_PORT (latch 0x02 0x00 0x00 (power_on []))) = 0.
Proof.
  destruct (status_port (io_write FS_ADDR_PORT 0xFF (power_on [])))
    as (_ & H3 & _).
  destruct (status_port (latch 0x02 0x00 0x01 (power_on [])))
    as (_ & _ & H2 & _).
  destruct (status_port (latch 0x02 0x00 0x00 (power_on [])))
    as (_ & _ & _ & _ & H0).
  destruct (H0 eq_refl eq_refl) as (H0s & H0r & _).
  rewrite H0r.
  split; [apply H3; simpl; lia|].
  split; [apply H2; reflexivity|].
  split; [exact H0s | reflexivity].
Defined.

(** The fields the address latch leaves behind, and the fields a data-port
    read keeps. *)
Lemma latch_idle_fields (s : state) (hi mid lo : Z) :
  is_byte hi -> is_byte mid -> is_byte lo -> fsdev_addr_lvl s = 0 ->
  fsdev_ptr (latch hi mid lo s) = latched_cursor hi mid lo /\
  fsdev_addr_lvl (latch hi mid lo s) = 0 /\
  latch hi mid lo s = set_fsdev_ptr (latched_cursor hi mid lo) s.
Proof.
  intros Hh Hm Hl Hidle.
  rewrite (latch_from_idle s hi mid lo Hh Hm Hl Hidle).
  split; [reflexivity|]. split; [exact Hidle | reflexivity].
Qed.

Lemma data_read_keeps (s : state) :
  mem (snd (io_read FS_DATA_PORT s)) = mem s /\
  fsdev (snd (io_read FS_DATA_PORT s)) = fsdev s /\
  fsdev_ptr (snd (io_read FS_DATA_PORT s)) = fsdev_ptr s /\
  fsdev_addr_lvl (snd (io_read FS_DATA_PORT s)) = fsdev_addr_lvl s /\
  running (snd (io_read FS_DATA_PORT s)) = running s.
Proof.
  rewrite io_read_data.
  destruct (fsdev_addr_lvl s =? 0);
    [destruct (fsdev_ptr s <? MAX_FSDEV_SIZE)|]; repeat split.
Qed.

(** C8.  A data-port read never changes memory, buffer, cursor, latch phase,
    run flag, input or output, whatever the phase and the cursor; all it may
    do is append one diagnostic to the error stream, and an in-range read
    with the latch idle returns the state exactly as it was. *)
Theorem data_read_frame (s : state) :
  let s' := snd (io_read FS_DATA_PORT s) in
  mem s' = mem s /\
  fsdev s' = fsdev s /\
  fsdev_ptr s' = fsdev_ptr s /\
  fsdev_addr_lvl s' = fsdev_addr_lvl s /\
  running s' = running s /\
  stdin s' = stdin s /\
  stdout s' = stdout s /\
  (s' = s \/ exists d, s' = fprintf_stderr d s) /\
  (fsdev_addr_lvl s = 0 -> fsdev_ptr s < MAX_FSDEV_SIZE -> s' = s).
Proof.
  intros s'. subst s'. rewrite io_read_data.
  destruct (fsdev_addr_lvl s =? 0) eqn:El;
    [destruct (fsdev_ptr s <? MAX_FSDEV_SIZE) eqn:Ep|]; simpl.
  - repeat split; try reflexivity. left; reflexivity.
  - repeat split; try reflexivity.
    + right. eexists. reflexivity.
    + intros _ Hlt. apply Z.ltb_lt in Hlt. congruence.
  - repeat split; try reflexivity.
    + right. eexists. reflexivity.
    + intros Hidle. apply Z.eqb_neq in El. contradiction.
Qed.

Lemma data_read_frame_witness :
  snd (io_read FS_DATA_PORT (latch 0x00 0x00 0x05 (power_on [0x41]))) =
    latch 0x00 0x00 0x05 (power_on [0x41]).
Proof.
  destruct (data_read_frame (latch 0x00 0x00 0x05 (power_on [0x41])))
    as (_ & _ & _ & _ & _ & _ & _ & _ & H).
  apply H; reflexivity.
Defined.

(** The byte a data-port read returns depends on the buffer, the cursor and
    the latch phase only. *)
Lemma data_read_value (s t : state) :
  fsdev s = fsdev t -> fsdev_ptr s = fsdev_ptr t ->
  fsdev_addr_lvl s = fsdev_addr_lvl t ->
  fst (io_read FS_DATA_PORT s) = fst (io_read FS_DATA_PORT t).
Proof.
  intros Hd Hp Hl. rewrite !io_read_data, Hd, Hp, Hl.
  destruct (fsdev_addr_lvl t =? 0); [|reflexivity].
  destruct (fsdev_ptr t <? MAX_FSDEV_SIZE); reflexivity.
Qed.

(** C9.  Latching the same three bytes a second time, with or without a
    data-port read in between, gives the same cursor as the first time, and
    the data-port read after each sequence returns the same byte. *)
Theorem latch_idempotent (s : state) (hi mid lo : Z) :
  is_byte hi -> is_byte mid -> is_byte lo -> fsdev_addr_lvl s = 0 ->
  let s1 := latch hi mid lo s in
  let r1 := io_read FS_DATA_PORT s1 in
  let s2 := latch hi mid lo (snd r1) in
  let r2 := io_read FS_DATA_PORT s2 in
  fsdev_ptr s1 = latched_cursor hi mid lo /\
  fsdev_ptr s2 = fsdev_ptr s1 /\
  fsdev_addr_lvl s2 = 0 /\
  fst r2 = fst r1 /\
  machine s2 = machine s1 /\
  latch hi mid lo s1 = s1.
Proof.
  intros Hh Hm Hl Hidle s1 r1 s2 r2.
  destruct (latch_idle_fields s hi mid lo Hh Hm Hl Hidle)
    as (Hp1 & Hl1 & Hs1).
  fold s1 in Hp1, Hl1, Hs1.
  destruct (data_read_keeps s1) as (Hm' & Hd' & Hp' & Hl' & Hr').
  fold r1 in Hm', Hd', Hp', Hl', Hr'.
  assert (Hidle' : fsdev_addr_lvl (snd r1) = 0) by congruence.
  destruct (latch_idle_fields (snd r1) hi mid lo Hh Hm Hl Hidle')
    as (Hp2 & Hl2 & Hs2).
  fold s2 in Hp2, Hl2, Hs2.
  assert (Hmach : machine s2 = machine s1).
  { rewrite Hs2. unfold machine. simpl.
    rewrite Hm', Hd', Hl', Hr', Hp1. reflexivity. }
  split; [exact Hp1|]. split; [congruence|]. split; [exact Hl2|].
  split; [|split; [exact Hmach|]].
  - unfold machine in Hmach. injection Hmach as Hm2 Hd2 Hpp Hll Hrr.
    apply data_read_value; assumption.
  - rewrite latch_from_idle by assumption.
    rewrite <- Hp1. destruct s1; reflexivity.
Qed.

Lemma latch_idempotent_witness :
  fsdev_ptr
    (latch 0x00 0x00 0x05
       (snd (io_read FS_DATA_PORT (latch 0x00 0x00 0x05 (power_on [])))))
    = 5 /\
  fst (io_read FS_DATA_PORT
         (latch 0x00 0x00 0x05
            (snd (io_read FS_DATA_PORT (latch 0x00 0x00 0x05 (power_on []))))))
    = fst (io_read FS_DATA_PORT (latch 0x00 0x00 0x05 (power_on []))).
Proof.
  destruct (latch_idempotent (power_on []) 0x00 0x00 0x05)
    as (Hp1 & Hp2 & _ & Hr & _);
    [unfold is_byte; lia | unfold is_byte; lia | unfold is_byte; lia
    | reflexivity | ].
  split; [rewrite Hp2; exact Hp1 | exact Hr].
Defined.

(** ** Memory *)

(** C6.  A memory write at any 16-bit address is always performed: the read
    of that address that follows returns the byte written, below [RAMSTART]
    too.  The ROM diagnostic is appended to the error stream when the address
    is below [RAMSTART] and nothing is appended otherwise; nothing but the
    memory cell and the error stream changes. *)
Theorem mem_write_then_read (s : state) (a v : Z) :
  wf s -> is_u16 a ->
  let s' := mem_write a v s in
  mem_read a s' = v /\
  mem s' = <[Z.to_nat a := v]> (mem s) /\
  (a < RAMSTART -> stderr s' = (stderr s ++ [RomWrite a])%list) /\
  (RAMSTART <= a -> stderr s' = stderr s) /\
  fsdev s' = fsdev s /\ fsdev_ptr s' = fsdev_ptr s /\
  fsdev_addr_lvl s' = fsdev_addr_lvl s /\ running s' = running s /\
  stdin s' = stdin s /\ stdout s' = stdout s.
Proof.
  intros [Hlen _] [Ha0 Ha1] s'. subst s'. unfold mem_write, mem_read.
  assert (Hi : (Z.to_nat a < length (mem s))%nat).
  { rewrite Hlen. apply Z2Nat.inj_lt; unfold MEM_SIZE; lia. }
  destruct (a <? RAMSTART) eqn:E; simpl;
    (split; [apply lookup_total_insert_same; exact Hi|]);
    (split; [reflexivity|]).
  - split; [reflexivity|]. apply Z.ltb_lt in E.
    split; [intros; lia|]. repeat split.
  - apply Z.ltb_ge in E. split; [intros; lia|]. repeat split.
Qed.

Lemma mem_write_then_read_witness :
  mem_read 0x1000 (mem_write 0x1000 0x58 (power_on [])) = 0x58 /\
  stderr (mem_write 0x1000 0x58 (power_on [])) = [RomWrite 0x1000] /\
  mem_read 0x5000 (mem_write 0x5000 0x58 (power_on [])) = 0x58 /\
  stderr (mem_write 0x5000 0x58 (power_on [])) = [].
Proof.
  destruct (mem_write_then_read (power_on []) 0x1000 0x58 (wf_power_on []))
    as (Hr & _ & Hd & _); [unfold is_u16; lia|].
  destruct (mem_write_then_read (power_on []) 0x5000 0x58 (wf_power_on []))
    as (Hr' & _ & _ & Hn & _); [unfold is_u16; lia|].
  split; [exact Hr|]. split; [apply Hd; reflexivity|].
  split; [exact Hr'|]. apply Hn. discriminate.
Defined.

(** Other cells keep their contents. *)
Lemma mem_write_other (s : state) (a b v : Z) :
  0 <= a -> 0 <= b -> a <> b ->
  mem_read b (mem_write a v s) = mem_read b s.
Proof.
  intros Ha Hb Hne. unfold mem_read, mem_write.
  assert (Hn : Z.to_nat a <> Z.to_nat b) by lia.
  destruct (a <? RAMSTART); simpl;
    apply list_lookup_total_insert_ne; exact Hn.
Qed.

(** ** Console *)

(** C7.  A console write of 0x04 clears the run flag and leaves the output
    stream as it was; a console write of any other byte appends exactly that
    byte to the output stream and leaves the run flag as it was.  In both
    cases the call returns, nothing is diagnosed and nothing else changes. *)
Theorem console_write (s : state) (b : Z) :
  let s' := io_write STDIO_PORT b s in
  (b = 0x04 -> running s' = 0 /\ stdout s' = stdout s) /\
  (b <> 0x04 -> stdout s' = (stdout s ++ [b])%list /\ running s' = running s) /\
  stderr s' = stderr s /\
  mem s' = mem s /\ fsdev s' = fsdev s /\ fsdev_ptr s' = fsdev_ptr s /\
  fsdev_addr_lvl s' = fsdev_addr_lvl s /\ stdin s' = stdin s.
Proof.
  intros s'. subst s'. rewrite io_write_console.
  destruct (Z.eqb_spec b 0x04) as [->|Hne]; simpl.
  - split; [intros _; split; reflexivity|].
    split; [intros Hc; contradiction|]. repeat split.
  - split; [intros Hc; contradiction|].
    split; [intros _; split; reflexivity|]. repeat split.
Qed.

Lemma console_write_witness :
  running (io_write STDIO_PORT 0x04 (set_running 1 (power_on []))) = 0 /\
  stdout (io_write STDIO_PORT 0x04 (set_running 1 (power_on []))) = [] /\
  stdout (io_write STDIO_PORT 0x58 (set_running 1 (power_on []))) = [0x58] /\
  running (io_write STDIO_PORT 0x58 (set_running 1 (power_on []))) = 1.
Proof.
  destruct (console_write (set_running 1 (power_on [])) 0x04) as (H4 & _).
  destruct (console_write (set_running 1 (power_on [])) 0x58) as (_ & Hx & _).
  destruct (H4 eq_refl) as [Hr Ho].
  destruct (Hx ltac:(discriminate)) as [Ho' Hr'].
  split; [exact Hr|]. split; [exact Ho|]. split; [exact Ho' | exact Hr'].
Defined.

(** C10.  A console read at end of input clears the run flag and returns
    0xFF, the low eight bits of [EOF]; the input stays exhausted and nothing
    else changes. *)
Theorem console_read_eof (s : state) :
  stdin s = [] ->
  io_read STDIO_PORT s = (0xFF, set_running 0 s) /\
  fst (io_read STDIO_PORT s) = u8 EOF /\
  running (snd (io_read STDIO_PORT s)) = 0 /\
  stdin (snd (io_read STDIO_PORT s)) = [].
Proof.
  intros Hin. rewrite io_read_console. unfold getchar. rewrite Hin. simpl.
  repeat split. exact Hin.
Qed.

Lemma console_read_eof_witness :
  fst (io_read STDIO_PORT (set_running 1 (power_on []))) = 255 /\
  running (set_running 1 (power_on [])) = 1 /\
  running (snd (io_read STDIO_PORT (set_running 1 (power_on [])))) = 0.
Proof.
  destruct (console_read_eof (set_running 1 (power_on [])) eq_refl)
    as (_ & Hv & Hr & _).
  split; [exact Hv|]. split; [reflexivity | exact Hr].
Defined.

(** A console read with input pending delivers the next byte and leaves the
    run flag alone. *)
Lemma console_read_byte (s : state) (c : Z) (rest : list Z) :
  is_byte c -> stdin s = c :: rest ->
  io_read STDIO_PORT s = (c, set_stdin rest s).
Proof.
  intros [H0 H1] Hin. rewrite io_read_console. unfold getchar. rewrite Hin.
  simpl. destruct (Z.eqb_spec c EOF) as [E|_]; [unfold EOF in E; lia|].
  unfold u8. rewrite Z.mod_small by (change (2 ^ 8) with 256; lia).
  reflexivity.
Qed.

(** ** The arrays keep their sizes *)



Lemma zeros_length (n : Z) : length (zeros n) = Z.to_nat n.
Proof. apply length_replicate. Qed.




(** ** The cursor invariant *)

Lemma step_keeps_ptr (s : state) (o : op) :
  (forall a v, o = IoWrite a v -> Z.land a 0xff <> FS_ADDR_PORT) ->
  fsdev_ptr (step s o) = fsdev_ptr s.
Proof.
  intros Hna. destruct o as [a|a v|a|a v]; simpl.
  - unfold io_read, getchar.
    repeat match goal with
           | |- context [if ?b then _ else _] => destruct b; simpl
           | |- context [match stdin s with _ => _ end] =>
               destruct (stdin s); simpl
           end; reflexivity.
  - specialize (Hna a v eq_refl). unfold io_write.
    destruct (Z.land a 0xff =? STDIO_PORT);
      [destruct (v =? 0x04); reflexivity|].
    destruct (Z.land a 0xff =? FS_DATA_PORT).
    { repeat match goal with
             | |- context [if ?b then _ else _] => destruct b; simpl
             end; reflexivity. }
    destruct (Z.land a 0xff =? FS_ADDR_PORT) eqn:E; [|reflexivity].
    apply Z.eqb_eq in E. contradiction.
  - reflexivity.
  - unfold mem_write. destruct (a <? RAMSTART); reflexivity.
Qed.

Lemma is_byteb_spec (v : Z) : is_byteb v = true -> is_byte v.
Proof. unfold is_byteb, is_byte. lia. Qed.

Lemma io_write_addr_inv (s : state) (v : Z) :
  is_byte v -> cursor_inv s -> cursor_inv (io_write FS_ADDR_PORT v s).
Proof.
  intros Hv [Hp Hl]. rewrite io_write_addr.
  pose proof (shiftl_byte_bound v 16 ltac:(lia) Hv) as H16.
  pose proof (shiftl_byte_bound v 8 ltac:(lia) Hv) as H8.
  change (2 ^ (8 + 16)) with (2 ^ 24) in H16.
  change (2 ^ (8 + 8)) with 65536 in H8.
  assert (Hv24 : 0 <= v < 2 ^ 24)
    by (unfold is_byte in Hv; change (2 ^ 24) with 16777216; lia).
  assert (H824 : 0 <= Z.shiftl v 8 < 2 ^ 24)
    by (change (2 ^ 24) with 16777216; lia).
  assert (Hsmall : forall z, 0 <= z < 2 ^ 24 -> u32 z = z).
  { intros z Hz. apply u32_small.
    change (2 ^ 24) with 16777216 in Hz. change (2 ^ 32) with 4294967296. lia. }
  unfold cursor_inv.
  destruct Hl as [Hl|[Hl|Hl]]; rewrite Hl; simpl.
  - rewrite Hsmall by exact H16. split; [exact H16 | auto].
  - pose proof (lor_bound _ _ 24 ltac:(lia) Hp H824) as Hb.
    rewrite Hsmall by exact Hb. split; [exact Hb | auto].
  - pose proof (lor_bound _ _ 24 ltac:(lia) Hp Hv24) as Hb.
    rewrite Hsmall by exact Hb. split; [exact Hb | auto].
Qed.

Lemma step_inv (s : state) (o : op) :
  op_okb o = true -> cursor_inv s -> cursor_inv (step s o).
Proof.
  intros Hok Hinv.
  assert (Hframe : (forall a v, o = IoWrite a v -> Z.land a 0xff <> FS_ADDR_PORT) ->
                   cursor_inv (step s o)).
  { intros Hna. unfold cursor_inv.
    rewrite step_keeps_ptr, step_keeps_lvl by exact Hna. exact Hinv. }
  destruct o as [a|a v|a|a v]; try (apply Hframe; intros; discriminate).
  destruct (Z.eq_dec (Z.land a 0xff) FS_ADDR_PORT) as [E|E].
  - simpl. rewrite io_write_port_mask, E. apply io_write_addr_inv; [|exact Hinv].
    simpl in Hok. apply andb_prop in Hok as [_ Hv]. apply is_byteb_spec, Hv.
  - apply Hframe. intros a' v' Heq. injection Heq as <- <-. exact E.
Qed.

Lemma run_inv (ops : list op) (s : state) :
  forallb op_okb ops = true -> cursor_inv s -> cursor_inv (run ops s).
Proof.
  revert s. induction ops as [|o ops IH]; intros s Hok Hinv; [exact Hinv|].
  simpl in Hok. apply andb_prop in Hok as [Ho Hops].
  unfold run. simpl. apply IH; [exact Hops|]. apply step_inv; assumption.
Qed.

Lemma boot_started (K : list Z) (img : option (list Z)) (tty : bool)
      (input : list Z) (s0 : state) :
  boot K img tty input = Started s0 ->
  fsdev_ptr s0 = 0 /\ fsdev_addr_lvl s0 = 0 /\ running s0 = 1 /\
  stdin s0 = input /\ stderr s0 = [].
Proof.
  unfold boot. destruct img as [i|].
  - destruct (load_image i 0 _) as [n dev].
    destruct (n =? MAX_FSDEV_SIZE); [discriminate|].
    destruct tty; simpl; [|discriminate].
    intros H. injection H as <-. repeat split.
  - destruct tty; simpl; [|discriminate].
    intros H. injection H as <-. repeat split.
Qed.

Lemma run_app (ops1 ops2 : list op) (s : state) :
  run (ops1 ++ ops2) s = run ops2 (run ops1 s).
Proof. unfold run. apply fold_left_app. Qed.

(** C5, as the code has it.  In every state reached from start-up by
    callbacks with arguments of their C types, the cursor is a 24-bit value
    (at most 0xFFFFFF, not at most the capacity) and the latch phase is 0, 1
    or 2.  From any such state with the latch idle, three further
    address-port writes reach a state whose cursor is [(hi<<16)|(mid<<8)|lo],
    and the status read there is 2 exactly when that value is strictly above
    the capacity, 0 otherwise. *)
Theorem cursor_reachable_range (K : list Z) (img : option (list Z))
        (tty : bool) (input : list Z) (s0 : state) (ops : list op) :
  boot K img tty input = Started s0 ->
  forallb op_okb ops = true ->
  let s := run ops s0 in
  0 <= fsdev_ptr s <= 0xFFFFFF /\
  (fsdev_addr_lvl s = 0 \/ fsdev_addr_lvl s = 1 \/ fsdev_addr_lvl s = 2) /\
  forall hi mid lo,
    is_byte hi -> is_byte mid -> is_byte lo -> fsdev_addr_lvl s = 0 ->
    let s' := run (ops ++ [IoWrite FS_ADDR_PORT hi; IoWrite FS_ADDR_PORT mid;
                           IoWrite FS_ADDR_PORT lo]) s0 in
    fsdev_addr_lvl s' = 0 /\
    fsdev_ptr s' = latched_cursor hi mid lo /\
    fst (io_read FS_ADDR_PORT s') =
      (if latched_cursor hi mid lo >? MAX_FSDEV_SIZE then 2 else 0).
Proof.
  intros Hboot Hok s.
  destruct (boot_started _ _ _ _ _ Hboot) as (Hp0 & Hl0 & _).
  assert (Hinv : cursor_inv s).
  { apply run_inv; [exact Hok|]. unfold cursor_inv. rewrite Hp0, Hl0.
    split; [change (2 ^ 24) with 16777216; lia | auto]. }
  destruct Hinv as [Hp Hl]. change (2 ^ 24) with 16777216 in Hp.
  split; [lia|]. split; [exact Hl|].
  intros hi mid lo Hh Hm Hlo Hidle s'.
  assert (Hs' : s' = latch hi mid lo s) by (subst s'; rewrite run_app; reflexivity).
  destruct (latch_idle_fields s hi mid lo Hh Hm Hlo Hidle)
    as (Hc & Hi & _).
  rewrite Hs'. split; [exact Hi|]. split; [exact Hc|].
  rewrite io_read_status. simpl. rewrite Hi, Hc. reflexivity.
Qed.

Lemma cursor_reachable_range_witness :
  0 <= fsdev_ptr (run [IoWrite 2 0xFF; IoWrite 2 0xFF; IoWrite 2 0xFF]
                      blank_session) <= 0xFFFFFF /\
  fsdev_ptr (run ([] ++ [IoWrite FS_ADDR_PORT 0xFF; IoWrite FS_ADDR_PORT 0xFF;
                         IoWrite FS_ADDR_PORT 0xFF]) blank_session) = 0xFFFFFF.
Proof.
  destruct (cursor_reachable_range [] None true [] blank_session
              [IoWrite 2 0xFF; IoWrite 2 0xFF; IoWrite 2 0xFF]
              eq_refl eq_refl) as (Hb & _).
  destruct (cursor_reachable_range [] None true [] blank_session []
              eq_refl eq_refl) as (_ & _ & Hlatch).
  destruct (Hlatch 0xFF 0xFF 0xFF) as (_ & Hc & _);
    [unfold is_byte; lia | unfold is_byte; lia | unfold is_byte; lia
    | reflexivity | ].
  split; [exact Hb | exact Hc].
Defined.

(** C5 as the spec words it fails: from start-up, latching 0x02, 0x00, 0x01
    completes a sequence with the cursor at 131073, strictly above the
    capacity, and the status read then returns 2. *)
Lemma cursor_above_capacity_reachable :
  boot [] None true [] = Started blank_session /\
  forallb op_okb [IoWrite 2 0x02; IoWrite 2 0x00; IoWrite 2 0x01] = true /\
  fsdev_addr_lvl
    (run [IoWrite 2 0x02; IoWrite 2 0x00; IoWrite 2 0x01] blank_session) = 0 /\
  fsdev_ptr
    (run [IoWrite 2 0x02; IoWrite 2 0x00; IoWrite 2 0x01] blank_session)
    = 131073 /\
  fsdev_ptr
    (run [IoWrite 2 0x02; IoWrite 2 0x00; IoWrite 2 0x01] blank_session)
    > MAX_FSDEV_SIZE /\
  fst (io_read FS_ADDR_PORT
         (run [IoWrite 2 0x02; IoWrite 2 0x00; IoWrite 2 0x01] blank_session))
    = 2.
Proof. repeat split. Qed.

(** ** End-to-end scenarios *)

(** A buffer preloaded with 0xAB at offset 5, read back through the latch. *)
Example scenario_preloaded_read :
  match boot [] (Some [0; 0; 0; 0; 0; 0xAB]) true [] with
  | Started s0 =>
      fst (io_read FS_DATA_PORT (latch 0x00 0x00 0x05 s0)) = 0xAB /\
      stderr (snd (io_read FS_DATA_PORT (latch 0x00 0x00 0x05 s0))) = []
  | Exited _ _ => False
  end.
Proof. vm_compute. split; reflexivity. Qed.

(** Byte 0x58 written to the console shows up unmodified. *)
Example scenario_console_X :
  stdout (io_write STDIO_PORT 0x58 (power_on [])) = [0x58].
Proof. reflexivity. Qed.

(** A write into the ROM region is seen by the next read and is diagnosed. *)
Example scenario_rom_write :
  mem_read 0x1000 (mem_write 0x1000 0x37 (power_on [])) = 0x37 /\
  stderr (mem_write 0x1000 0x37 (power_on [])) = [RomWrite 0x1000].
Proof. vm_compute. split; reflexivity. Qed.

(** High bits of the port number are ignored. *)
Example scenario_port_mask :
  fst (io_read 0x0102 (io_write 0xFF02 0x07 (power_on []))) = 3.
Proof. reflexivity. Qed.

(** * Further properties of the callbacks *)

(** ** Port decoding *)

(** X1.  Two port numbers with the same low eight bits are the same port:
    reads and writes through them behave identically. *)
Theorem port_low_byte_decides (a b v : Z) (s : state) :
  Z.land a 0xff = Z.land b 0xff ->
  io_read a s = io_read b s /\ io_write a v s = io_write b v s.
Proof.
  intros Hab. split.
  - rewrite (io_read_port_mask a), (io_read_port_mask b), Hab. reflexivity.
  - rewrite (io_write_port_mask a), (io_write_port_mask b), Hab. reflexivity.
Qed.

Lemma port_low_byte_decides_witness :
  io_read 0x0102 (power_on []) = io_read 0x02 (power_on []) /\
  io_write 0xFF00 0x58 (power_on []) = io_write 0x00 0x58 (power_on []).
Proof.
  split.
  - apply (port_low_byte_decides 0x0102 0x02 0); reflexivity.
  - apply (port_low_byte_decides 0xFF00 0x00 0x58); reflexivity.
Defined.

(** X2.  A port whose low byte is 3 or more is not decoded: a read returns
    zero, and read and write alike leave memory, buffer, cursor, latch phase,
    run flag, input and output alone, reporting the masked port number on the
    error stream. *)
Theorem undecoded_port (a v : Z) (s : state) :
  3 <= Z.land a 0xff ->
  let r := io_read a s in
  let w := io_write a v s in
  fst r = 0 /\
  snd r = fprintf_stderr (OobIoRead (Z.land a 0xff)) s /\
  w = fprintf_stderr (OobIoWrite (Z.land a 0xff) v) s /\
  machine (snd r) = machine s /\ machine w = machine s /\
  stdin (snd r) = stdin s /\ stdout (snd r) = stdout s /\
  stdin w = stdin s /\ stdout w = stdout s.
Proof.
  intros Hp r w. subst r w. unfold io_read, io_write.
  destruct (Z.eqb_spec (Z.land a 0xff) STDIO_PORT) as [E|_];
    [unfold STDIO_PORT in E; lia|].
  destruct (Z.eqb_spec (Z.land a 0xff) FS_DATA_PORT) as [E|_];
    [unfold FS_DATA_PORT in E; lia|].
  destruct (Z.eqb_spec (Z.land a 0xff) FS_ADDR_PORT) as [E|_];
    [unfold FS_ADDR_PORT in E; lia|].
  repeat split.
Qed.

Lemma undecoded_port_witness :
  fst (io_read 0x1203 (power_on [])) = 0 /\
  stderr (snd (io_read 0x1203 (power_on []))) = [OobIoRead 3] /\
  stderr (io_write 0xFF 0x58 (power_on [])) = [OobIoWrite 255 0x58].
Proof.
  destruct (undecoded_port 0x1203 0 (power_on [])) as (H0 & Hr & _);
    [apply Z.leb_le; reflexivity|].
  destruct (undecoded_port 0xFF 0x58 (power_on [])) as (_ & _ & Hw & _);
    [apply Z.leb_le; reflexivity|].
  split; [exact H0|]. rewrite Hr, Hw. split; reflexivity.
Defined.

(** ** The block device as a store *)

(** X3.  With the latch idle and the cursor inside the buffer, a data-port
    write stores its byte without a diagnostic: the read that follows returns
    that byte, every other offset keeps its content, and the cursor stays
    where it was (no auto-increment on writes either). *)
Theorem data_write_read_roundtrip (s : state) (v : Z) :
  wf s -> fsdev_addr_lvl s = 0 -> 0 <= fsdev_ptr s < MAX_FSDEV_SIZE ->
  let s' := io_write FS_DATA_PORT v s in
  io_read FS_DATA_PORT s' = (v, s') /\
  s' = set_fsdev (<[Z.to_nat (fsdev_ptr s) := v]> (fsdev s)) s /\
  (forall j : nat, j <> Z.to_nat (fsdev_ptr s) -> fsdev s' !! j = fsdev s !! j) /\
  wf s' /\ fsdev_ptr s' = fsdev_ptr s /\ stderr s' = stderr s.
Proof.
  intros [Hm Hd] Hidle [Hp0 Hp1] s'.
  assert (Hs : s' = set_fsdev (<[Z.to_nat (fsdev_ptr s) := v]> (fsdev s)) s).
  { subst s'. rewrite io_write_data, Hidle. simpl.
    apply Z.ltb_lt in Hp1. rewrite Hp1. reflexivity. }
  assert (Hi : (Z.to_nat (fsdev_ptr s) < length (fsdev s))%nat).
  { rewrite Hd. apply Z2Nat.inj_lt; unfold MAX_FSDEV_SIZE in *; lia. }
  split; [|split; [exact Hs|]]; rewrite Hs.
  - rewrite io_read_data. simpl. rewrite Hidle. simpl.
    apply Z.ltb_lt in Hp1. rewrite Hp1.
    rewrite lookup_total_insert_same by exact Hi. reflexivity.
  - split; [|split; [|split; reflexivity]].
    + intros j Hj. simpl. apply list_lookup_insert_ne. congruence.
    + split; simpl; [exact Hm | rewrite length_insert; exact Hd].
Qed.

Lemma data_write_read_roundtrip_witness :
  fst (io_read FS_DATA_PORT
         (io_write FS_DATA_PORT 0x37 (latch 0x00 0x01 0x02 (power_on []))))
  = 0x37.
Proof.
  destruct (data_write_read_roundtrip (latch 0x00 0x01 0x02 (power_on [])) 0x37
              (wf_power_on []) eq_refl) as (Hr & _).
  - split; [apply Z.leb_le; reflexivity | reflexivity].
  - rewrite Hr. reflexivity.
Defined.

(** X4.  Through the whole port protocol the device is a byte store: after
    latching an in-range address and writing a byte, latching the same
    address again and reading returns that byte, while latching any other
    address and reading gives what it gave before the write. *)
Theorem latch_store_load (s : state) (hi mid lo hi' mid' lo' v : Z) :
  wf s -> fsdev_addr_lvl s = 0 ->
  is_byte hi -> is_byte mid -> is_byte lo ->
  is_byte hi' -> is_byte mid' -> is_byte lo' ->
  latched_cursor hi mid lo < MAX_FSDEV_SIZE ->
  let s1 := io_write FS_DATA_PORT v (latch hi mid lo s) in
  fst (io_read FS_DATA_PORT (latch hi mid lo s1)) = v /\
  (latched_cursor hi' mid' lo' <> latched_cursor hi mid lo ->
   fst (io_read FS_DATA_PORT (latch hi' mid' lo' s1)) =
   fst (io_read FS_DATA_PORT (latch hi' mid' lo' s))).
Proof.
  intros [Hm Hd] Hidle Hh Hmi Hl Hh' Hmi' Hl' Hin s1.
  pose proof (latched_cursor_bound hi mid lo Hh Hmi Hl) as [Hc0 _].
  pose proof (latched_cursor_bound hi' mid' lo' Hh' Hmi' Hl') as [Hc0' _].
  set (c := latched_cursor hi mid lo) in *.
  set (c' := latched_cursor hi' mid' lo') in *.
  assert (Hs1 : s1 = set_fsdev (<[Z.to_nat c := v]> (fsdev s)) (set_fsdev_ptr c s)).
  { subst s1. rewrite (latch_from_idle s hi mid lo Hh Hmi Hl Hidle).
    fold c. rewrite io_write_data. simpl. rewrite Hidle. simpl.
    apply Z.ltb_lt in Hin. rewrite Hin. reflexivity. }
  assert (Hidle1 : fsdev_addr_lvl s1 = 0) by (rewrite Hs1; exact Hidle).
  assert (Hi : (Z.to_nat c < length (fsdev s))%nat).
  { rewrite Hd. apply Z2Nat.inj_lt; unfold MAX_FSDEV_SIZE in *; lia. }
  split.
  - rewrite (latch_from_idle s1 hi mid lo Hh Hmi Hl Hidle1). fold c.
    rewrite io_read_data. simpl. rewrite Hidle1. simpl.
    apply Z.ltb_lt in Hin. rewrite Hin. rewrite Hs1. simpl.
    apply lookup_total_insert_same. exact Hi.
  - intros Hne.
    rewrite (latch_from_idle s1 hi' mid' lo' Hh' Hmi' Hl' Hidle1).
    rewrite (latch_from_idle s hi' mid' lo' Hh' Hmi' Hl' Hidle).
    fold c'. rewrite !io_read_data. simpl. rewrite Hidle1, Hidle. simpl.
    destruct (c' <? MAX_FSDEV_SIZE); [|reflexivity]. simpl.
    rewrite Hs1. simpl. apply list_lookup_total_insert_ne. lia.
Qed.

Lemma latch_store_load_witness :
  fst (io_read FS_DATA_PORT
         (latch 0x01 0x00 0x00
            (io_write FS_DATA_PORT 0xAB (latch 0x01 0x00 0x00 (power_on [])))))
  = 0xAB.
Proof.
  destruct (latch_store_load (power_on []) 0x01 0x00 0x00 0x00 0x00 0x00 0xAB
              (wf_power_on []) eq_refl) as (H & _);
    [unfold is_byte; lia | unfold is_byte; lia | unfold is_byte; lia
    | unfold is_byte; lia | unfold is_byte; lia | unfold is_byte; lia
    | reflexivity | exact H].
Defined.

(** ** Address decoding *)

Lemma lor_shiftl_add (a b n : Z) :
  0 <= n -> 0 <= b < 2 ^ n -> Z.lor (Z.shiftl a n) b = a * 2 ^ n + b.
Proof.
  intros Hn [Hb0 Hb1].
  assert (Hland : Z.land (Z.shiftl a n) b = 0).
  { apply Z.bits_inj'. intros m Hm. rewrite Z.land_spec, Z.bits_0.
    destruct (Z.lt_ge_cases m n) as [Hlt|Hge].
    - rewrite Z.shiftl_spec_low by exact Hlt. reflexivity.
    - destruct (Z.eq_dec b 0) as [->|Hne].
      + rewrite Z.bits_0. apply andb_false_r.
      + rewrite (Z.bits_above_log2 b m); [apply andb_false_r | lia |].
        assert (Z.log2 b < n) by (apply Z.log2_lt_pow2; lia). lia. }
  rewrite <- Z.lxor_lor by exact Hland.
  rewrite <- Z.add_nocarry_lxor by exact Hland.
  rewrite Z.shiftl_mul_pow2 by exact Hn. reflexivity.
Qed.

Lemma latched_cursor_sum (hi mid lo : Z) :
  is_byte mid -> is_byte lo ->
  latched_cursor hi mid lo = hi * 65536 + mid * 256 + lo.
Proof.
  unfold is_byte, latched_cursor. intros Hm Hl.
  assert (H8 : Z.shiftl mid 8 = mid * 256)
    by (rewrite Z.shiftl_mul_pow2 by lia; reflexivity).
  assert (Hin : Z.lor (Z.shiftl hi 16) (Z.shiftl mid 8) =
                Z.shiftl (hi * 256 + mid) 8).
  { rewrite (lor_shiftl_add hi (Z.shiftl mid 8) 16).
    - rewrite H8, Z.shiftl_mul_pow2 by lia.
      change (2 ^ 16) with 65536. change (2 ^ 8) with 256. lia.
    - lia.
    - rewrite H8. change (2 ^ 16) with 65536. lia. }
  rewrite Hin, lor_shiftl_add.
  - change (2 ^ 8) with 256. lia.
  - lia.
  - change (2 ^ 8) with 256. lia.
Qed.

(** X5.  The latch decodes its three bytes without loss: from an idle latch,
    two byte triples that leave the same cursor are the same triple. *)
Theorem latch_cursor_injective (s : state) (hi mid lo hi' mid' lo' : Z) :
  fsdev_addr_lvl s = 0 ->
  is_byte hi -> is_byte mid -> is_byte lo ->
  is_byte hi' -> is_byte mid' -> is_byte lo' ->
  fsdev_ptr (latch hi mid lo s) = fsdev_ptr (latch hi' mid' lo' s) ->
  hi = hi' /\ mid = mid' /\ lo = lo'.
Proof.
  intros Hidle Hh Hm Hl Hh' Hm' Hl'.
  rewrite (latch_from_idle s hi mid lo Hh Hm Hl Hidle).
  rewrite (latch_from_idle s hi' mid' lo' Hh' Hm' Hl' Hidle). simpl.
  rewrite !latched_cursor_sum by assumption.
  unfold is_byte in *. lia.
Qed.

Lemma latch_cursor_injective_witness :
  0x01 = 0x01 /\ 0x02 = 0x02 /\ 0x03 = 0x03.
Proof.
  apply (latch_cursor_injective (power_on []) 0x01 0x02 0x03 0x01 0x02 0x03);
    try (unfold is_byte; lia); reflexivity.
Defined.

(** X6.  Every 24-bit value can be latched: its three bytes, most
    significant first, are bytes and written to the address port from an
    idle latch they leave exactly that value in the cursor. *)
Theorem every_cursor_latchable (s : state) (c : Z) :
  fsdev_addr_lvl s = 0 -> 0 <= c < 2 ^ 24 ->
  let '(hi, mid, lo) := cursor_bytes c in
  is_byte hi /\ is_byte mid /\ is_byte lo /\
  latch hi mid lo s = set_fsdev_ptr c s.
Proof.
  intros Hidle Hc. unfold cursor_bytes.
  change 0xff with (Z.ones 8). rewrite !Z.land_ones by lia.
  rewrite !Z.shiftr_div_pow2 by lia.
  change (2 ^ 24) with 16777216 in Hc. change (2 ^ 16) with 65536.
  change (2 ^ 8) with 256.
  assert (Hh : is_byte (c / 65536)) by (unfold is_byte; Z.div_mod_to_equations; lia).
  assert (Hm : is_byte ((c / 256) mod 256)) by (unfold is_byte; Z.div_mod_to_equations; lia).
  assert (Hl : is_byte (c mod 256)) by (unfold is_byte; Z.div_mod_to_equations; lia).
  split; [exact Hh|]. split; [exact Hm|]. split; [exact Hl|].
  rewrite (latch_from_idle s _ _ _ Hh Hm Hl Hidle).
  rewrite latched_cursor_sum by assumption.
  f_equal. Z.div_mod_to_equations. lia.
Qed.

Lemma every_cursor_latchable_witness :
  latch 0x01 0xFF 0xFF (power_on []) = set_fsdev_ptr 131071 (power_on []).
Proof.
  pose proof (every_cursor_latchable (power_on []) 131071 eq_refl) as H.
  destruct H as (_ & _ & _ & H); [split; [discriminate | reflexivity]|].
  exact H.
Defined.

(** ** Latch phase *)

Lemma addr_write_phase (b : Z) (s : state) :
  0 <= fsdev_addr_lvl s < 3 ->
  fsdev_addr_lvl (io_write FS_ADDR_PORT b s) = (fsdev_addr_lvl s + 1) mod 3.
Proof.
  intros Hl. rewrite io_write_addr.
  assert (Hc : fsdev_addr_lvl s = 0 \/ fsdev_addr_lvl s = 1 \/ fsdev_addr_lvl s = 2)
    by lia.
  destruct Hc as [E|[E|E]]; rewrite E; reflexivity.
Qed.

(** X7.  The latch phase counts address-port writes modulo three and nothing
    resets it: after any number of writes it is the old phase plus that
    number, modulo 3.  A latch that is one or two bytes into a sequence is
    therefore still out of step after any number of complete three-byte
    sequences. *)
Theorem addr_writes_phase (bs : list Z) (s : state) :
  0 <= fsdev_addr_lvl s < 3 ->
  fsdev_addr_lvl (addr_writes bs s) =
    (fsdev_addr_lvl s + Z.of_nat (length bs)) mod 3.
Proof.
  revert s. induction bs as [|b bs IH]; intros s Hl.
  - simpl. rewrite Z.add_0_r, Z.mod_small by exact Hl. reflexivity.
  - unfold addr_writes in *. cbn [fold_left length].
    pose proof (addr_write_phase b s Hl) as Hstep.
    rewrite IH by (rewrite Hstep; apply Z.mod_pos_bound; lia).
    rewrite Hstep, Z.add_mod_idemp_l by lia.
    f_equal. lia.
Qed.

Lemma addr_writes_phase_witness :
  fsdev_addr_lvl
    (addr_writes [0x00; 0x00; 0x05; 0x00; 0x00; 0x06]
       (io_write FS_ADDR_PORT 0x01 (power_on []))) = 1.
Proof.
  rewrite (addr_writes_phase [0x00; 0x00; 0x05; 0x00; 0x00; 0x06]
             (io_write FS_ADDR_PORT 0x01 (power_on [])));
    [reflexivity | split; [discriminate | reflexivity]].
Defined.

(** ** What a run of callbacks does to each part of the state *)



Lemma step_running (s : state) (o : op) :
  running (step s o) = running s \/ running (step s o) = 0.
Proof.
  destruct o as [a|a v|a|a v]; simpl.
  - unfold io_read, getchar.
    repeat match goal with
           | |- context [if ?b then _ else _] => destruct b; simpl
           | |- context [match stdin s with _ => _ end] =>
               destruct (stdin s); simpl
           end; auto.
  - unfold io_write.
    repeat match goal with
           | |- context [if ?b then _ else _] => destruct b; simpl
           end; auto.
  - auto.
  - unfold mem_write. destruct (a <? RAMSTART); auto.
Qed.

(** X9.  No callback ever sets the run flag: after any sequence of callbacks
    it is either what it was or zero, so a session that has been told to
    stop is never restarted. *)
Theorem run_flag_only_cleared (ops : list op) (s : state) :
  (running (run ops s) = running s \/ running (run ops s) = 0) /\
  (running s = 0 -> running (run ops s) = 0).
Proof.
  assert (H : forall ops s,
             running (run ops s) = running s \/ running (run ops s) = 0).
  { clear. intros ops. induction ops as [|o ops IH]; intros s; [left; reflexivity|].
    unfold run in *. cbn [fold_left].
    destruct (IH (step s o)) as [E|E]; [|right; exact E].
    rewrite E. apply step_running. }
  split; [apply H|]. intros H0. destruct (H ops s) as [E|E]; congruence.
Qed.

Lemma run_flag_only_cleared_witness :
  running (run [IoWrite 0x00 0x58; MemWrite 0x5000 0x01; IoRead 0x01]
               (io_write STDIO_PORT 0x04 blank_session)) = 0.
Proof.
  apply (run_flag_only_cleared
           [IoWrite 0x00 0x58; MemWrite 0x5000 0x01; IoRead 0x01]
           (io_write STDIO_PORT 0x04 blank_session)).
  reflexivity.
Defined.

Lemma run_cons (o : op) (ops : list op) (s : state) :
  run (o :: ops) s = run ops (step s o).
Proof. reflexivity. Qed.

Lemma step_stdout (s : state) (o : op) :
  stdout (step s o) = (stdout s ++ console_bytes [o])%list.
Proof.
  destruct o as [a|a v|a|a v]; cbn [step console_bytes flat_map].
  - rewrite !app_nil_r. unfold io_read, getchar.
    repeat match goal with
           | |- context [if ?b then _ else _] => destruct b; simpl
           | |- context [match stdin s with _ => _ end] =>
               destruct (stdin s); simpl
           end; reflexivity.
  - rewrite app_nil_r. unfold io_write.
    destruct (Z.land a 0xff =? STDIO_PORT); cbn [andb].
    + destruct (v =? 0x04); simpl; [rewrite app_nil_r|]; reflexivity.
    + rewrite app_nil_r.
      repeat match goal with
             | |- context [if ?b then _ else _] => destruct b; simpl
             end; reflexivity.
  - rewrite !app_nil_r. reflexivity.
  - rewrite !app_nil_r. unfold mem_write. destruct (a <? RAMSTART); reflexivity.
Qed.

Lemma console_bytes_cons (o : op) (ops : list op) :
  console_bytes (o :: ops) = (console_bytes [o] ++ console_bytes ops)%list.
Proof. unfold console_bytes. simpl. rewrite app_nil_r. reflexivity. Qed.

(** X10.  The output stream after any sequence of callbacks is the output
    before it followed by exactly the bytes written to the console port, in
    order and without the 0x04 bytes: no read, no block-device or memory
    access and no diagnostic ever adds to the guest's output. *)
Theorem stdout_is_console_writes (ops : list op) (s : state) :
  stdout (run ops s) = (stdout s ++ console_bytes ops)%list.
Proof.
  revert s. induction ops as [|o ops IH]; intros s.
  - simpl. rewrite app_nil_r. reflexivity.
  - rewrite (console_bytes_cons o ops), run_cons, IH, step_stdout, app_assoc.
    reflexivity.
Qed.

Lemma step_stdin (s : state) (o : op) :
  stdin (step s o) = drop (console_reads [o]) (stdin s).
Proof.
  destruct o as [a|a v|a|a v]; cbn [step console_reads].
  - unfold io_read, getchar.
    destruct (Z.land a 0xff =? STDIO_PORT).
    + destruct (stdin s) as [|c rest] eqn:E; simpl.
      * exact E.
      * destruct (c =? EOF); reflexivity.
    + repeat match goal with
             | |- context [if ?b then _ else _] => destruct b; simpl
             end; reflexivity.
  - unfold io_write.
    repeat match goal with
           | |- context [if ?b then _ else _] => destruct b; simpl
           end; reflexivity.
  - reflexivity.
  - unfold mem_write. destruct (a <? RAMSTART); reflexivity.
Qed.

Lemma console_reads_cons (o : op) (ops : list op) :
  console_reads (o :: ops) = (console_reads [o] + console_reads ops)%nat.
Proof.
  destruct o as [a|a v|a|a v]; simpl; try reflexivity.
  destruct (Z.land a 0xff =? STDIO_PORT); reflexivity.
Qed.

(** X11.  Each console read takes one byte off the input and nothing else
    touches it: after any sequence of callbacks the pending input is the
    original input without its first [n] bytes, [n] being the number of
    console reads (all of it gone when there were fewer bytes than reads). *)
Theorem stdin_consumed_by_console_reads (ops : list op) (s : state) :
  stdin (run ops s) = drop (console_reads ops) (stdin s).
Proof.
  revert s. induction ops as [|o ops IH]; intros s.
  - reflexivity.
  - rewrite (console_reads_cons o ops), run_cons, IH, step_stdin, drop_drop.
    reflexivity.
Qed.

(** X12.  A console read with input pending returns the next byte, removes
    it from the input and changes nothing else; the run flag is kept even
    when the byte is 0xFF, the value a read at end of input returns. *)
Theorem console_read_pending (s : state) (c : Z) (rest : list Z) :
  is_byte c -> stdin s = c :: rest ->
  io_read STDIO_PORT s = (c, set_stdin rest s) /\
  running (snd (io_read STDIO_PORT s)) = running s /\
  stdin (snd (io_read STDIO_PORT s)) = rest /\
  stdout (snd (io_read STDIO_PORT s)) = stdout s /\
  stderr (snd (io_read STDIO_PORT s)) = stderr s.
Proof.
  intros Hc Hin. rewrite (console_read_byte s c rest Hc Hin). repeat split.
Qed.

Lemma console_read_pending_witness :
  fst (io_read STDIO_PORT (set_running 1 (power_on [0xFF; 0x41]))) = 0xFF /\
  running (snd (io_read STDIO_PORT (set_running 1 (power_on [0xFF; 0x41])))) = 1 /\
  stdin (snd (io_read STDIO_PORT (set_running 1 (power_on [0xFF; 0x41])))) = [0x41].
Proof.
  destruct (console_read_pending (set_running 1 (power_on [0xFF; 0x41]))
              0xFF [0x41]) as (Hv & Hr & Hi & _);
    [unfold is_byte; lia | reflexivity |].
  rewrite Hv. split; [reflexivity|]. split; [exact Hr | exact Hi].
Defined.

(** ** Separation of memory and block device *)

Lemma io_read_mem (a : Z) (s : state) : mem (snd (io_read a s)) = mem s.
Proof.
  unfold io_read, getchar.
  repeat match goal with
         | |- context [if ?b then _ else _] => destruct b; simpl
         | |- context [match stdin s with _ => _ end] =>
             destruct (stdin s); simpl
         end; reflexivity.
Qed.

Lemma io_read_fsdev (a : Z) (s : state) : fsdev (snd (io_read a s)) = fsdev s.
Proof.
  unfold io_read, getchar.
  repeat match goal with
         | |- context [if ?b then _ else _] => destruct b; simpl
         | |- context [match stdin s with _ => _ end] =>
             destruct (stdin s); simpl
         end; reflexivity.
Qed.

(** X13.  The I/O callbacks never change the memory image, and the block
    device buffer is changed by nothing but a write to the data port: not by
    any read, not by a write to another port, not by a memory write. *)
Theorem memory_and_device_separate (a v : Z) (s : state) :
  mem (snd (io_read a s)) = mem s /\
  mem (io_write a v s) = mem s /\
  fsdev (snd (io_read a s)) = fsdev s /\
  (Z.land a 0xff <> FS_DATA_PORT -> fsdev (io_write a v s) = fsdev s) /\
  fsdev (mem_write a v s) = fsdev s /\
  fsdev_ptr (mem_write a v s) = fsdev_ptr s /\
  fsdev_addr_lvl (mem_write a v s) = fsdev_addr_lvl s.
Proof.
  split; [apply io_read_mem|]. split; [|split; [apply io_read_fsdev|split]].
  - unfold io_write.
    repeat match goal with
           | |- context [if ?b then _ else _] => destruct b; simpl
           end; reflexivity.
  - intros Hp. unfold io_write.
    destruct (Z.land a 0xff =? STDIO_PORT);
      [destruct (v =? 0x04); reflexivity|].
    destruct (Z.eqb_spec (Z.land a 0xff) FS_DATA_PORT) as [E|_];
      [contradiction|].
    repeat match goal with
           | |- context [if ?b then _ else _] => destruct b; simpl
           end; reflexivity.
  - unfold mem_write. destruct (a <? RAMSTART); repeat split.
Qed.

Lemma memory_and_device_separate_witness :
  fsdev (io_write FS_ADDR_PORT 0x07 (power_on [])) = fsdev (power_on []).
Proof.
  destruct (memory_and_device_separate FS_ADDR_PORT 0x07 (power_on []))
    as (_ & _ & _ & H & _).
  apply H. discriminate.
Defined.

(** X14.  A memory write changes the addressed cell only: a read of any
    other address returns what it returned before. *)
Theorem mem_write_changes_one_cell (s : state) (a b v : Z) :
  is_u16 a -> is_u16 b -> a <> b ->
  mem_read b (mem_write a v s) = mem_read b s.
Proof.
  intros [Ha _] [Hb _] Hne. apply mem_write_other; assumption.
Qed.

Lemma mem_write_changes_one_cell_witness :
  mem_read 0x1001 (mem_write 0x1000 0x58 (power_on [])) =
  mem_read 0x1001 (power_on []).
Proof.
  apply (mem_write_changes_one_cell (power_on []) 0x1000 0x1001 0x58);
    unfold is_u16; lia.
Defined.

(** * Start-up *)

Lemma zeros_lookup (n : Z) (j : nat) :
  Z.of_nat j < n -> zeros n !! j = Some 0.
Proof. intros Hj. apply lookup_replicate_2. lia. Qed.

Lemma zeros_index (n : Z) (j : nat) :
  Z.of_nat j < n -> (j < length (zeros n))%nat.
Proof. intros Hj. rewrite zeros_length. lia. Qed.

Lemma load_image_index (src : list Z) (i : Z) (dev : list Z) :
  i <= MAX_FSDEV_SIZE ->
  fst (load_image src i dev) =
    Z.min (i + Z.of_nat (length src)) MAX_FSDEV_SIZE.
Proof.
  revert i dev. induction src as [|c rest IH]; intros i dev Hi.
  - simpl. lia.
  - cbn [load_image length]. destruct (Z.ltb_spec i MAX_FSDEV_SIZE) as [Hlt|Hge].
    + rewrite IH by lia. lia.
    + simpl. lia.
Qed.

Lemma load_image_lookup (src : list Z) (i : Z) (dev : list Z) (j : nat) :
  0 <= i -> length dev = Z.to_nat MAX_FSDEV_SIZE ->
  snd (load_image src i dev) !! j =
    if (i <=? Z.of_nat j) && (Z.of_nat j <? MAX_FSDEV_SIZE) then
      match src !! (j - Z.to_nat i)%nat with
      | Some c => Some (Z.land c 0xff)
      | None => dev !! j
      end
    else dev !! j.
Proof.
  revert i dev. induction src as [|c rest IH]; intros i dev Hi Hlen.
  - simpl. destruct (_ && _); reflexivity.
  - cbn [load_image]. destruct (Z.ltb_spec i MAX_FSDEV_SIZE) as [Hlt|Hge].
    + rewrite IH by (rewrite ?length_insert; lia || exact Hlen).
      destruct (Z.leb_spec i (Z.of_nat j)) as [Hij|Hij];
        destruct (Z.ltb_spec (Z.of_nat j) MAX_FSDEV_SIZE) as [Hj|Hj];
        destruct (Z.leb_spec (i + 1) (Z.of_nat j)) as [Hij'|Hij'];
        cbn [andb]; try lia.
      * replace (j - Z.to_nat i)%nat with (S (j - Z.to_nat (i + 1)))%nat by lia.
        cbn [lookup list_lookup]. 
        destruct (rest !! (j - Z.to_nat (i + 1))%nat); [reflexivity|].
        apply list_lookup_insert_ne. lia.
      * assert (Hji : Z.to_nat i = j) by lia. subst j.
        rewrite Nat.sub_diag. cbn [lookup list_lookup].
        apply list_lookup_insert_eq. rewrite Hlen. lia.
      * apply list_lookup_insert_ne. lia.
      * apply list_lookup_insert_ne. lia.
    + cbn [snd].
      destruct (Z.leb_spec i (Z.of_nat j)) as [Hij|Hij];
        destruct (Z.ltb_spec (Z.of_nat j) MAX_FSDEV_SIZE) as [Hj|Hj];
        cbn [andb]; try lia; reflexivity.
Qed.

Lemma copy_kernel_lookup (kernel : list Z) (i : Z) (m : list Z) (j : nat) :
  0 <= i -> (j < length m)%nat ->
  copy_kernel kernel i m !! j =
    match (if i <=? Z.of_nat j then kernel !! (j - Z.to_nat i)%nat else None) with
    | Some b => Some b
    | None => m !! j
    end.
Proof.
  revert i m. induction kernel as [|b rest IH]; intros i m Hi Hj.
  - simpl. destruct (i <=? Z.of_nat j); reflexivity.
  - cbn [copy_kernel]. rewrite IH by (rewrite ?length_insert; lia).
    destruct (Z.leb_spec i (Z.of_nat j)) as [Hij|Hij];
      destruct (Z.leb_spec (i + 1) (Z.of_nat j)) as [Hij'|Hij']; try lia.
    + replace (j - Z.to_nat i)%nat with (S (j - Z.to_nat (i + 1)))%nat by lia.
      cbn [lookup list_lookup].
      destruct (rest !! (j - Z.to_nat (i + 1))%nat); [reflexivity|].
      apply list_lookup_insert_ne. lia.
    + assert (Hji : Z.to_nat i = j) by lia. subst j.
      rewrite Nat.sub_diag. cbn [lookup list_lookup].
      apply list_lookup_insert_eq. exact Hj.
    + apply list_lookup_insert_ne. lia.
Qed.

(** X15.  Start-up either enters the CPU loop or ends with exit code 1.  It
    enters the loop exactly when the terminal could be set up and the packed
    image, if there is one, is strictly shorter than the buffer: an image of
    131072 bytes or more is refused.  On entry the run flag is 1, the cursor
    0, the latch idle and nothing has been diagnosed; on refusal the kernel
    has not been copied and the run flag is still 0. *)
Theorem boot_outcome (K : list Z) (img : option (list Z)) (tty : bool)
        (input : list Z) :
  match boot K img tty input with
  | Started s0 =>
      tty = true /\
      (forall i, img = Some i -> Z.of_nat (length i) < MAX_FSDEV_SIZE) /\
      running s0 = 1 /\ fsdev_ptr s0 = 0 /\ fsdev_addr_lvl s0 = 0 /\
      stdin s0 = input /\ stderr s0 = []
  | Exited code s =>
      code = 1 /\ running s = 0 /\ mem s = zeros MEM_SIZE /\
      (tty = false \/
       exists i, img = Some i /\ MAX_FSDEV_SIZE <= Z.of_nat (length i))
  end.
Proof.
  unfold boot. destruct img as [i|].
  - cbn [printf_line set_stdout power_on fsdev mem set_fsdev].
    pose proof (load_image_index i 0 (zeros MAX_FSDEV_SIZE)) as Hidx.
    destruct (load_image i 0 (zeros MAX_FSDEV_SIZE)) as [n dev].
    cbn [fst] in Hidx. specialize (Hidx ltac:(unfold MAX_FSDEV_SIZE; lia)).
    destruct (Z.eqb_spec n MAX_FSDEV_SIZE) as [E|E].
    + repeat split. right. exists i. split; [reflexivity|]. lia.
    + destruct tty; cbn [negb].
      * repeat split. intros i' Hi'. injection Hi' as <-. lia.
      * repeat split. left. reflexivity.
  - destruct tty; cbn [negb].
    + repeat split. intros i' Hi'. discriminate.
    + repeat split. left. reflexivity.
Qed.

(** X16.  When the CPU loop is entered, the block-device buffer holds the
    packed image from offset 0, each byte reduced to its low eight bits, and
    zero at every offset after it; with no image it is all zero. *)
Theorem boot_image_contents (K : list Z) (img : option (list Z)) (tty : bool)
        (input : list Z) (s0 : state) (j : nat) :
  boot K img tty input = Started s0 ->
  Z.of_nat j < MAX_FSDEV_SIZE ->
  fsdev s0 !! j =
    Some (match img with
          | Some i => match i !! j with Some c => Z.land c 0xff | None => 0 end
          | None => 0
          end).
Proof.
  unfold boot. destruct img as [i|].
  - cbn [printf_line set_stdout power_on fsdev mem set_fsdev].
    pose proof (load_image_lookup i 0 (zeros MAX_FSDEV_SIZE) j
                  ltac:(lia) (zeros_length _)) as Hlk.
    destruct (load_image i 0 (zeros MAX_FSDEV_SIZE)) as [n dev].
    cbn [snd] in Hlk.
    destruct (n =? MAX_FSDEV_SIZE); [discriminate|].
    destruct tty; cbn [negb]; [|discriminate].
    intros Hboot Hj. injection Hboot as <-.
    cbn [set_running set_mem set_fsdev fsdev]. rewrite Hlk.
    destruct (Z.leb_spec 0 (Z.of_nat j)) as [_|?]; [|lia].
    destruct (Z.ltb_spec (Z.of_nat j) MAX_FSDEV_SIZE) as [_|?]; [|lia].
    cbn [andb]. rewrite Nat.sub_0_r.
    destruct (i !! j); [reflexivity | apply zeros_lookup; exact Hj].
  - destruct tty; cbn [negb]; [|discriminate].
    intros Hboot Hj. injection Hboot as <-.
    cbn [set_running set_mem set_fsdev printf_line set_stdout power_on fsdev].
    apply zeros_lookup; exact Hj.
Qed.

Lemma boot_image_contents_witness :
  fsdev preloaded_session !! 5%nat = Some 0xAB /\
  fsdev preloaded_session !! 6%nat = Some 0.
Proof.
  split.
  - exact (boot_image_contents [0xC3; 0x00; 0x01] (Some [0; 0; 0; 0; 0; 0xAB])
             true [] preloaded_session 5 eq_refl eq_refl).
  - exact (boot_image_contents [0xC3; 0x00; 0x01] (Some [0; 0; 0; 0; 0; 0xAB])
             true [] preloaded_session 6 eq_refl eq_refl).
Defined.

(** X17.  When the CPU loop is entered, memory holds the kernel blob
    verbatim from address 0 and zero at every address after it (for a blob
    that fits the 64 KiB image). *)
Theorem boot_kernel_contents (K : list Z) (img : option (list Z)) (tty : bool)
        (input : list Z) (s0 : state) (j : nat) :
  boot K img tty input = Started s0 ->
  Z.of_nat (length K) <= MEM_SIZE ->
  Z.of_nat j < MEM_SIZE ->
  mem s0 !! j = Some (match K !! j with Some b => b | None => 0 end).
Proof.
  assert (Hk : Z.of_nat j < MEM_SIZE ->
               copy_kernel K 0 (zeros MEM_SIZE) !! j =
               Some (match K !! j with Some b => b | None => 0 end)).
  { intros Hj. rewrite copy_kernel_lookup;
      [|lia|apply zeros_index; exact Hj].
    destruct (Z.leb_spec 0 (Z.of_nat j)) as [_|?]; [|lia].
    rewrite Nat.sub_0_r.
    destruct (K !! j); [reflexivity | apply zeros_lookup; exact Hj]. }
  unfold boot. destruct img as [i|].
  - cbn [printf_line set_stdout power_on fsdev mem set_fsdev].
    destruct (load_image i 0 (zeros MAX_FSDEV_SIZE)) as [n dev].
    destruct (n =? MAX_FSDEV_SIZE); [discriminate|].
    destruct tty; cbn [negb]; [|discriminate].
    intros Hboot _ Hj. injection Hboot as <-.
    cbn [set_running set_mem set_fsdev mem]. apply Hk, Hj.
  - destruct tty; cbn [negb]; [|discriminate].
    intros Hboot _ Hj. injection Hboot as <-.
    cbn [set_running set_mem set_fsdev printf_line set_stdout power_on mem].
    apply Hk, Hj.
Qed.

Lemma boot_kernel_contents_witness :
  mem preloaded_session !! 0%nat = Some 0xC3 /\
  mem preloaded_session !! 3%nat = Some 0.
Proof.
  split.
  - exact (boot_kernel_contents [0xC3; 0x00; 0x01] (Some [0; 0; 0; 0; 0; 0xAB])
             true [] preloaded_session 0 eq_refl ltac:(discriminate) eq_refl).
  - exact (boot_kernel_contents [0xC3; 0x00; 0x01] (Some [0; 0; 0; 0; 0; 0xAB])
             true [] preloaded_session 3 eq_refl ltac:(discriminate) eq_refl).
Defined.

(** * The CPU loop *)

Section LoopFacts.
Context {cpu : Type}.
Variable Z80Execute : cpu -> state -> cpu * state.
Variable halted : cpu -> bool.

Lemma cpu_loop_stop (fuel : nat) (c : cpu) (s : state) :
  loop_cond halted c s = false ->
  cpu_loop Z80Execute halted fuel c s = Some (c, s).
Proof. intros H. destruct fuel; simpl; rewrite H; reflexivity. Qed.

Lemma cpu_loop_go (fuel : nat) (c : cpu) (s : state) :
  loop_cond halted c s = true ->
  cpu_loop Z80Execute halted (S fuel) c s =
    cpu_loop Z80Execute halted fuel (fst (Z80Execute c s))
             (snd (Z80Execute c s)).
Proof.
  intros H. simpl. rewrite H. destruct (Z80Execute c s). reflexivity.
Qed.

Lemma exec_n_S (k : nat) (c : cpu) (s : state) :
  exec_n Z80Execute (S k) c s =
    exec_n Z80Execute k (fst (Z80Execute c s)) (snd (Z80Execute c s)).
Proof. simpl. destruct (Z80Execute c s). reflexivity. Qed.

Lemma cpu_loop_first_stop (k fuel : nat) (c : cpu) (s : state) :
  (forall j, (j < k)%nat -> cond_after Z80Execute halted j c s = true) ->
  cond_after Z80Execute halted k c s = false ->
  (k <= fuel)%nat ->
  cpu_loop Z80Execute halted fuel c s = Some (exec_n Z80Execute k c s).
Proof.
  unfold cond_after. revert fuel c s.
  induction k as [|k IH]; intros fuel c s Hbefore Hstop Hfuel.
  - apply cpu_loop_stop. exact Hstop.
  - destruct fuel as [|fuel]; [lia|].
    rewrite cpu_loop_go by (apply (Hbefore O); lia).
    rewrite exec_n_S. apply IH.
    + intros j Hj. specialize (Hbefore (S j) ltac:(lia)).
      rewrite exec_n_S in Hbefore. exact Hbefore.
    + rewrite exec_n_S in Hstop. exact Hstop.
    + lia.
Qed.

Lemma cpu_loop_result (fuel : nat) (c : cpu) (s : state) (r : cpu * state) :
  cpu_loop Z80Execute halted fuel c s = Some r ->
  exists k, (k <= fuel)%nat /\ r = exec_n Z80Execute k c s /\
            cond_after Z80Execute halted k c s = false /\
            forall j, (j < k)%nat -> cond_after Z80Execute halted j c s = true.
Proof.
  unfold cond_after. revert c s.
  induction fuel as [|fuel IH]; intros c s Hr.
  - simpl in Hr. destruct (loop_cond halted c s) eqn:E; [discriminate|].
    injection Hr as <-. exists O.
    split; [lia|]. split; [reflexivity|]. split; [exact E|].
    intros j Hj. lia.
  - destruct (loop_cond halted c s) eqn:E.
    + rewrite cpu_loop_go in Hr by exact E.
      destruct (IH _ _ Hr) as (k & Hk & Hres & Hstop & Hbefore).
      exists (S k). rewrite exec_n_S.
      split; [lia|]. split; [exact Hres|]. split; [exact Hstop|].
      intros [|j] Hj; [exact E|].
      rewrite exec_n_S. apply Hbefore. lia.
    + rewrite cpu_loop_stop in Hr by exact E. injection Hr as <-.
      exists O. split; [lia|]. split; [reflexivity|]. split; [exact E|].
      intros j Hj. lia.
Qed.

Lemma cpu_loop_reaches (fuel : nat) (c c' : cpu) (s s' : state) :
  (forall c s, exists ops,
      forallb op_okb ops = true /\ snd (Z80Execute c s) = run ops s) ->
  cpu_loop Z80Execute halted fuel c s = Some (c', s') ->
  exists ops, forallb op_okb ops = true /\ s' = run ops s.
Proof.
  intros Hcb. revert c s.
  induction fuel as [|fuel IH]; intros c s Hr.
  - simpl in Hr. destruct (loop_cond halted c s); [discriminate|].
    injection Hr as _ <-. exists []. split; reflexivity.
  - destruct (loop_cond halted c s) eqn:E.
    + rewrite cpu_loop_go in Hr by exact E.
      destruct (IH _ _ Hr) as (ops2 & Hok2 & Hs2).
      destruct (Hcb c s) as (ops1 & Hok1 & Hs1).
      exists (ops1 ++ ops2)%list. split.
      * rewrite forallb_app, Hok1, Hok2. reflexivity.
      * rewrite run_app, <- Hs1. exact Hs2.
    + rewrite cpu_loop_stop in Hr by exact E. injection Hr as _ <-.
      exists []. split; reflexivity.
Qed.
End LoopFacts.

(** X18.  The CPU loop returns exactly at the first iteration at which the
    run flag is zero or the CPU is halted: with a bound of [fuel] iterations
    it yields a result if and only if such an iteration [k] exists within the
    bound, and the result is then the state after exactly [k] stepper calls;
    in particular the stepper is not called once the run flag is cleared. *)
Theorem cpu_loop_returns_at_first_stop (cpu : Type)
        (Z80Execute : cpu -> state -> cpu * state) (halted : cpu -> bool)
        (fuel : nat) (c : cpu) (s : state) (r : cpu * state) :
  cpu_loop Z80Execute halted fuel c s = Some r <->
  exists k, (k <= fuel)%nat /\ r = exec_n Z80Execute k c s /\
            (running (snd r) = 0 \/ halted (fst r) = true) /\
            forall j, (j < k)%nat ->
                      running (snd (exec_n Z80Execute j c s)) <> 0 /\
                      halted (fst (exec_n Z80Execute j c s)) = false.
Proof.
  assert (Hcond : forall c s, loop_cond halted c s = true <->
                              running s <> 0 /\ halted c = false).
  { clear. intros c s. unfold loop_cond.
    rewrite andb_true_iff, !negb_true_iff, Z.eqb_neq. reflexivity. }
  assert (Hncond : forall c s, loop_cond halted c s = false <->
                               running s = 0 \/ halted c = true).
  { clear. intros c s. unfold loop_cond.
    rewrite andb_false_iff, !negb_false_iff, Z.eqb_eq. reflexivity. }
  split.
  - intros Hr. destruct (cpu_loop_result _ _ _ _ _ _ Hr)
      as (k & Hk & Hres & Hstop & Hbefore).
    unfold cond_after in Hstop, Hbefore.
    exists k. split; [exact Hk|]. split; [exact Hres|]. split.
    + rewrite Hres. apply Hncond, Hstop.
    + intros j Hj. apply Hcond, Hbefore, Hj.
  - intros (k & Hk & Hres & Hstop & Hbefore). subst r.
    apply cpu_loop_first_stop; unfold cond_after.
    + intros j Hj. apply Hcond, Hbefore, Hj.
    + apply Hncond, Hstop.
    + exact Hk.
Qed.

(** X19.  If every stepper call acts on the emulator state only through
    callbacks with arguments of their C types, the state in which the CPU
    loop ends is reached from the state it started in by such callbacks. *)
Theorem cpu_loop_state_reachable (cpu : Type)
        (Z80Execute : cpu -> state -> cpu * state) (halted : cpu -> bool)
        (fuel : nat) (c c' : cpu) (s s' : state) :
  (forall c s, exists ops,
      forallb op_okb ops = true /\ snd (Z80Execute c s) = run ops s) ->
  cpu_loop Z80Execute halted fuel c s = Some (c', s') ->
  exists ops, forallb op_okb ops = true /\ s' = run ops s.
Proof. apply cpu_loop_reaches. Qed.

Lemma script_execute_callbacks (c : list op) (s : state) :
  exists ops, forallb op_okb ops = true /\ snd (script_execute c s) = run ops s.
Proof.
  destruct c as [|o rest]; simpl.
  - exists []. split; reflexivity.
  - destruct (op_okb o) eqn:E.
    + exists [o]. simpl. rewrite E. split; reflexivity.
    + exists []. split; reflexivity.
Qed.

Lemma cpu_loop_state_reachable_witness :
  exists ops,
    forallb op_okb ops = true /\
    run [IoWrite 0x00 0x58; IoWrite 0x00 0x04] blank_session
    = run ops blank_session.
Proof.
  apply (cpu_loop_state_reachable (list op) script_execute script_halted 5%nat
           [IoWrite 0x00 0x58; IoWrite 0x00 0x04; IoWrite 0x00 0x59]
           [IoWrite 0x00 0x59] blank_session
           (run [IoWrite 0x00 0x58; IoWrite 0x00 0x04] blank_session)
           script_execute_callbacks).
  reflexivity.
Defined.

(** A guest that prints 'X', asks to stop and would then print 'Y': the
    session ends with exit code 0 and 'Y' is never printed. *)
Example scenario_guest_shutdown :
  match main (fun c => c) script_execute script_halted 5
             [IoWrite 0x00 0x58; IoWrite 0x00 0x04; IoWrite 0x00 0x59]
             [] None true [] with
  | Some (code, s) =>
      code = 0 /\ running s = 0 /\
      stdout s = (bytes_of_string "Can't initialize filesystem. Leaving blank."
                  ++ [10; 0x58] ++ bytes_of_string "Done!" ++ [10])%list
  | None => False
  end.
Proof. cbv -[zeros]. repeat split. Qed.
